(** * ESBMC-AI: the command-line driver (main.py)

    A shallow embedding of the driver that runs the ESBMC verifier on a
    source file, seeds a chat transcript with the source and the verifier
    output, and then serves an interactive prompt.

    Python text is modelled by [string], byte strings by [list byte], the
    integers by [Z].  Output, the progress indicator, the child process and
    the calls on the chat object are recorded as a trace of events; [exit]
    and uncaught exceptions end a run. *)

From Stdlib Require Import String Ascii List ZArith Lia Bool DecimalString.
From Stdlib.Strings Require Import Byte.
Import ListNotations.
Open Scope list_scope.
Open Scope string_scope.

(** ** Python text primitives *)

Module PyText.

(** The line break, Python's ["\n"]. *)
Definition LF : ascii := "010"%char.
Definition backslash : ascii := "\"%char.
Definition squote : ascii := "'"%char.
Definition dquote : ascii := "034"%char.

(** The two characters backslash, n: Python's ["\\n"]. *)
Definition ESCAPED_NL : string := String backslash (String "n"%char "").
Definition NEWLINE : string := String LF "".

(** [str.replace(old, new)] for a non-empty [old]: scan from the left,
    every match of [old] is replaced and the scan resumes after it.
    [skip] counts the characters of a match still to be dropped. *)
Fixpoint replace_from (skip : nat) (old new s : string) : string :=
  match s with
  | EmptyString => EmptyString
  | String c s' =>
      match skip with
      | S k => replace_from k old new s'
      | O =>
          if prefix old s
          then new ++ replace_from (String.length old - 1) old new s'
          else String c (replace_from 0 old new s')
      end
  end.

Definition str_replace (s old new : string) : string :=
  replace_from 0 old new s.

(** [s] holds [pat] somewhere. *)
Definition occurs (pat s : string) : Prop :=
  exists a b : string, s = a ++ pat ++ b.

Definition hexdigits : list ascii :=
  list_ascii_of_string "0123456789abcdef".

Definition hexdigit (n : N) : ascii :=
  nth (N.to_nat n) hexdigits "0"%char.

(** One byte of a [bytes] object as [repr] shows it between [quote]s. *)
Definition repr_byte (quote : ascii) (c : byte) : string :=
  let a := ascii_of_byte c in
  if ((a =? quote)%char || (a =? backslash)%char)%bool then String backslash (String a "")
  else if (a =? "009")%char then String backslash "t"
  else if (a =? LF)%char then String backslash "n"
  else if (a =? "013")%char then String backslash "r"
  else if ((Byte.to_N c <? 32)%N || (127 <=? Byte.to_N c)%N)%bool
       then String backslash
              (String "x"%char
                 (String (hexdigit (N.shiftr (N.land (Byte.to_N c) 240) 4))
                    (String (hexdigit (N.land (Byte.to_N c) 15)) "")))
  else String a "".

Definition has_byte (a : ascii) (bs : list byte) : bool :=
  existsb (fun c => (ascii_of_byte c =? a)%char) bs.

(** The quote [repr] picks: a single quote, unless the bytes hold a single
    quote and no double quote. *)
Definition repr_quote (bs : list byte) : ascii :=
  if (has_byte squote bs && negb (has_byte dquote bs))%bool then dquote else squote.

Fixpoint repr_body (quote : ascii) (bs : list byte) : string :=
  match bs with
  | [] => ""
  | c :: bs' => repr_byte quote c ++ repr_body quote bs'
  end.

(** [repr(bs)] of a [bytes] object, which is also its [str(bs)]. *)
Definition bytes_repr (bs : list byte) : string :=
  let quote := repr_quote bs in
  String "b"%char (String quote (repr_body quote bs ++ String quote "")).

(** [communicate()] gives a [bytes] object for a piped stream and [None]
    for a stream that was not piped; [str] accepts both. *)
Definition py_str (v : option (list byte)) : string :=
  match v with
  | Some bs => bytes_repr bs
  | None => "None"
  end.

(** [str(n)] of an integer. *)
Definition str_int (n : Z) : string :=
  NilZero.string_of_int (Z.to_int n).

Definition bytes_of_string (s : string) : list byte :=
  map byte_of_ascii (list_ascii_of_string s).

End PyText.
Import PyText.


(** ** Runs: traces, exits and uncaught exceptions *)

(** A chat message, the dict [{"role": ..., "content": ...}]. *)
Record Message := { role : string; content : string }.

(** The reply object of the chat backend, by the fields main.py reads:
    [print(response)], [response.usage.total_tokens] and the role, content
    and finish reason of [response.choices[0]]. *)
Record Response := {
  response_text : string;
  usage_total_tokens : Z;
  choice_finish_reason : string;
  choice_role : string;
  choice_content : string
}.

Inductive Exn :=
| FileError        (* the file could not be opened or read in get_src *)
| SpawnError       (* Popen could not start the child *)
| EOFError         (* input() at the end of the input *)
| BackendError (detail : string).   (* raised inside chat.send_message *)

Inductive Event :=
| Print (text : string)                    (* print(text) *)
| Prompt (text : string)                   (* input(text) *)
| AnimStart (text : string)                (* anim.start(text) *)
| AnimStop                                 (* anim.stop() *)
| ReadFile (path : string)                 (* open(path, mode="r") *)
| Spawn (cmd : list string)                (* Popen(cmd, stdout=PIPE) *)
| ChatNew (system_messages : list Message) (* ChatInterface(...) *)
| SendMessage (text : string).             (* chat.send_message(text) *)

Inductive Outcome (A : Type) :=
| Returned (a : A)
| Exited (status : Z)
| Raised (e : Exn).
Arguments Returned {A} a.
Arguments Exited {A} status.
Arguments Raised {A} e.

Definition Run (A : Type) : Type := list Event * Outcome A.

Definition ret {A} (a : A) : Run A := ([], Returned a).

Definition bind {A B} (m : Run A) (k : A -> Run B) : Run B :=
  match m with
  | (t, Returned a) => let (t', o) := k a in ((t ++ t')%list, o)
  | (t, Exited status) => (t, Exited status)
  | (t, Raised e) => (t, Raised e)
  end.

Definition emit (e : Event) : Run unit := ([e], Returned tt).
Definition exit {A} (status : Z) : Run A := ([], Exited status).
Definition raise {A} (e : Exn) : Run A := ([], Raised e).

Declare Scope run_scope.
Delimit Scope run_scope with run.
Notation "x <- m ;; k" := (bind m (fun x => k))
  (at level 61, m at next level, right associativity) : run_scope.
Notation "' pat <- m ;; k" := (bind m (fun x => match x with pat => k end))
  (at level 61, pat pattern, m at next level, right associativity) : run_scope.
Notation "m ;; k" := (bind m (fun _ => k))
  (at level 61, right associativity) : run_scope.
Open Scope run_scope.

Definition print (text : string) : Run unit := emit (Print text).

(** ** The world outside the program *)

(** What the verifier process does once started. *)
Record Child := {
  returncode : Z;
  stdout_data : list byte;
  stderr_data : list byte
}.

Record World := {
  path_exists : string -> bool;            (* os.path.exists *)
  file_text : string -> option string;     (* the text of a file, if it opens *)
  run_child : list string -> option Child; (* the child of a command, if it starts *)
}.

(** A stream of the child is either piped back to the parent or left on
    the parent's own stream. *)
Inductive Stream := PIPE | Inherited.

Record Process := {
  proc_child : Child;
  proc_stdout : Stream;
  proc_stderr : Stream
}.

Definition Popen (w : World) (cmd : list string) (stdout stderr : Stream) : Run Process :=
  emit (Spawn cmd);;
  match run_child w cmd with
  | Some c => ret {| proc_child := c; proc_stdout := stdout; proc_stderr := stderr |}
  | None => raise SpawnError
  end.

(** [process.communicate()]: the data of each piped stream, [None] for a
    stream that is not piped. *)
Definition communicate (p : Process) : option (list byte) * option (list byte) :=
  (match proc_stdout p with PIPE => Some (stdout_data (proc_child p)) | Inherited => None end,
   match proc_stderr p with PIPE => Some (stderr_data (proc_child p)) | Inherited => None end).

Definition wait (p : Process) : Z := returncode (proc_child p).

(** What main.py imports from the chat module: the chat object with its
    constructor, [send_message] and the two attributes that are printed,
    and the default persona messages.  The module is outside this file, so
    the driver is verified for every implementation of it.  [send_message]
    gives the updated chat object with the reply, or the detail of the
    exception it raises. *)
Class ChatModule := {
  AIModel : Type;
  Temperature : Type;
  ChatInterface : Type;
  new_ChatInterface : list Message -> AIModel -> Temperature -> ChatInterface;
  send_message : ChatInterface -> string -> ChatInterface * Response + string;
  max_tokens : ChatInterface -> Z;
  model_name : ChatInterface -> string;
  SYSTEM_MSG_DEFAULT : list Message
}.

(** ** The driver *)

Section Driver.

Context {chat_module : ChatModule}.

(** [config.cfg_sys_msg] is the empty string until the configuration gives
    the system messages to use instead of the default ones. *)
Inductive SysMsgSetting :=
| EmptyStr
| Messages (msgs : list Message).

(** The settings main.py reads from the configuration module, as
    [config.load_envs()] and [config.load_args(args)] leave them. *)
Record Config := {
  esbmc_path : string;
  esbmc_params : list string;
  verbose : bool;
  raw_responses : bool;
  cfg_sys_msg : SysMsgSetting;
  cfg_initial_prompt : string;
  ai_model : AIModel;
  chat_temperature : Temperature
}.

(** The parsed command line. *)
Record Args := {
  filename : string;
  remaining : list string;
  args_verbose : bool;
  args_raw_output : bool;
  args_ai_model : string
}.

(** The help text argparse shows for the [remaining] arguments. *)
Definition REMAINING_HELP : string :=
  "Any arguments after the filename will be passed to ESBMC as parameters.".

Definition DEFAULT_PROMPT : string :=
  "Walk me through the source code, while also explaining the output of ESBMC at the relevant parts. You shall not start the reply with an acknowledgement message such as 'Certainly'.".

Variable w : World.
Variable config : Config.

(** Python's [repr] of a list of [str]; it only shapes a progress message. *)
Variable repr_params : list string -> string.

(** Modelled from the spec: [config.printv], of the configuration module
    that is not among the sources: the verbose output toggle, a message is
    printed only when the flag is set, as the nested [printv] of
    [init_check_health] does with its own flag. *)
Definition printv (m : string) : Run unit :=
  if verbose config then print m else ret tt.

Definition print_help : Run unit :=
  print "";;
  print "Commands:";;
  print "/help: Print this help message.";;
  print "/exit: Exit the program.";;
  print "".

Definition init_check_health (verbose : bool) : Run unit :=
  let printv (m : string) : Run unit := if verbose then print m else ret tt in
  printv "Performing init health check...";;
  if path_exists w ".env"
  then printv "Environment file has been located"
  else print "Error: .env file is not found in project directory";; exit 3.

Definition check_health : Run unit :=
  printv "Performing health check...";;
  if path_exists w (esbmc_path config)
  then printv "ESBMC has been located"
  else print ("Error: ESBMC could not be found in " ++ esbmc_path config);; exit 3.

Definition get_src (path : string) : Run string :=
  emit (ReadFile path);;
  match file_text w path with
  | Some content => ret content
  | None => raise FileError
  end.

(** [esbmc(path, esbmc_params)].  The default of [esbmc_params] is
    [config.esbmc_params], and [main] calls [esbmc(args.filename)]. *)
Definition esbmc (path : string) (esbmc_params : list string) : Run (Z * string * string) :=
  let esbmc_cmd := [esbmc_path config] in
  let esbmc_cmd := (esbmc_cmd ++ esbmc_params)%list in
  let esbmc_cmd := (esbmc_cmd ++ [path])%list in
  process <- Popen w esbmc_cmd PIPE Inherited;;
  let '(output_bytes, err_bytes) := communicate process in
  let exit_code := wait process in
  let output := str_replace (py_str output_bytes) ESCAPED_NL NEWLINE in
  let err := str_replace (py_str err_bytes) ESCAPED_NL NEWLINE in
  ret (exit_code, output, err).

Definition print_assistant_response (chat : ChatInterface) (response : Response) : Run unit :=
  if raw_responses config then print (response_text response)
  else
    (if verbose config then
       let total_tokens := usage_total_tokens response in
       let max_tokens := max_tokens chat in
       let finish_reason := choice_finish_reason response in
       print (String.concat " "
                ["stats:";
                 "total tokens: " ++ str_int total_tokens ++ ",";
                 "max tokens: " ++ str_int max_tokens;
                 "finish reason: " ++ finish_reason ++ NEWLINE])
     else ret tt);;
    let response_role := choice_role response in
    let response_message := choice_content response in
    print (response_role ++ ": " ++ response_message ++ NEWLINE).

Definition build_system_messages (source_code esbmc_output : string) : Run (list Message) :=
  printv "Loading system messages";;
  let system_messages : list Message := [] in
  let system_messages :=
    match cfg_sys_msg config with
    | Messages msgs => (system_messages ++ msgs)%list
    | EmptyStr => (system_messages ++ SYSTEM_MSG_DEFAULT)%list
    end in
  let system_messages :=
    (system_messages ++
     [ {| role := "system";
          content := "Reply OK if you understand that the following text is the program source code: " ++ source_code |};
       {| role := "assistant"; content := "OK" |};
       {| role := "system";
          content := "Reply OK if you understand that the following text is the output from ESBMC after reading the program source code: " ++ esbmc_output |};
       {| role := "assistant"; content := "OK" |} ])%list in
  ret system_messages.

(** The call [chat.send_message(text)] as main.py makes it. *)
Definition call_send_message (chat : ChatInterface) (text : string)
  : Run (ChatInterface * Response) :=
  emit (SendMessage text);;
  match send_message chat text with
  | inl r => ret r
  | inr detail => raise (BackendError detail)
  end.

(** The [while True] loop of [main], over the lines the operator types. *)
Fixpoint loop (chat : ChatInterface) (lines : list string) : Run unit :=
  match lines with
  | [] => emit (Prompt ">: ");; raise EOFError
  | user_message :: lines' =>
      emit (Prompt ">: ");;
      if user_message =? "/exit" then
        print "exiting...";; exit 0
      else if user_message =? "/help" then
        print_help;; loop chat lines'
      else if user_message =? "" then
        loop chat lines'
      else
        print "";;
        emit (AnimStart "Generating response... Please Wait");;
        '(chat', response) <- call_send_message chat user_message;;
        emit AnimStop;;
        print_assistant_response chat' response;;
        loop chat' lines'
  end.

(** [main] from line 164 on: [args] is the command line as
    [parser.parse_args()] returned it, and [config] holds the settings as
    [config.load_envs()] and [config.load_args(args)] leave them.  These
    two calls and [config.init_ai_data()] belong to the configuration
    module, which is outside this file; they are taken to return.
    [lines] are the lines the operator types. *)
Definition main (args : Args) (lines : list string) : Run unit :=
  print "ESBMC-AI";;
  print "";;
  init_check_health (args_verbose args);;
  check_health;;
  printv "Reading source code...";;
  printv ("Running ESBMC with " ++ repr_params (esbmc_params config));;
  source_code <- get_src (filename args);;
  emit (AnimStart "ESBMC is processing... Please Wait");;
  '(exit_code, esbmc_output, esbmc_err) <- esbmc (filename args) (esbmc_params config);;
  emit AnimStop;;
  (if (exit_code =? 0)%Z then
     print "Success!";; print esbmc_output;; exit 0
   else if negb (exit_code =? 1)%Z then
     print ("ESBMC exit code: " ++ str_int exit_code);; exit 1
   else ret tt);;
  printv "Initializing OpenAI";;
  system_messages <- build_system_messages source_code esbmc_output;;
  emit (ChatNew system_messages);;
  let chat := new_ChatInterface system_messages (ai_model config) (chat_temperature config) in
  printv ("Using AI Model: " ++ model_name chat);;
  '(chat, response) <-
    (if negb (cfg_initial_prompt config =? "") then
       printv ("Using initial prompt from file..." ++ NEWLINE);;
       emit (AnimStart "Model is parsing ESBMC output... Please Wait");;
       r <- call_send_message chat (cfg_initial_prompt config);;
       emit AnimStop;;
       ret r
     else
       printv ("Using default initial prompts..." ++ NEWLINE);;
       emit (AnimStart "Model is parsing ESBMC output... Please Wait");;
       r <- call_send_message chat DEFAULT_PROMPT;;
       emit AnimStop;;
       ret r);;
  print_assistant_response chat response;;
  loop chat lines.

End Driver.

(** ** A chat module to run the driver with *)

(** Modelled from the spec: the chat object of the chat module, which is
    not among the sources.  [send_message] appends a user message with the
    text to the history, sends the whole history to the backend, and on a
    reply appends an assistant message with the reply's content and returns
    the reply; if the backend call raises, the exception goes to the caller. *)
Record SpecChat := {
  history : list Message;
  spec_model : string
}.

Definition spec_send_message (backend : list Message -> option Response)
    (chat : SpecChat) (text : string) : SpecChat * Response + string :=
  let sent := (history chat ++ [{| role := "user"; content := text |}])%list in
  match backend sent with
  | Some reply =>
      inl ({| history := (sent ++ [{| role := "assistant"; content := choice_content reply |}])%list;
              spec_model := spec_model chat |},
           reply)
  | None => inr "the backend call failed"
  end.

Definition spec_chat_module (backend : list Message -> option Response)
    (persona : list Message) : ChatModule :=
  {| AIModel := string;
     Temperature := unit;
     ChatInterface := SpecChat;
     new_ChatInterface := fun system_messages model _ =>
       {| history := system_messages; spec_model := model |};
     send_message := spec_send_message backend;
     max_tokens := fun _ => 4096%Z;
     model_name := spec_model;
     SYSTEM_MSG_DEFAULT := persona |}.

(** A backend that answers every request with the number of messages it
    was sent, and one that is out of reach. *)
Definition counting_backend (sent : list Message) : option Response :=
  let n := str_int (Z.of_nat (List.length sent)) in
  Some {| response_text := "<response " ++ n ++ ">";
          usage_total_tokens := Z.of_nat (List.length sent);
          choice_finish_reason := "stop";
          choice_role := "assistant";
          choice_content := "reply to " ++ n ++ " messages" |}.

Definition failing_backend (sent : list Message) : option Response := None.

Definition demo_persona : list Message :=
  [ {| role := "system"; content := "You are an assistant that explains verifier output." |} ].

Definition demo_config (M : ChatModule) (model : @AIModel M) (t : @Temperature M) : @Config M :=
  {| esbmc_path := "./esbmc";
     esbmc_params := ["--k-induction"];
     verbose := false;
     raw_responses := false;
     cfg_sys_msg := EmptyStr;
     cfg_initial_prompt := "";
     ai_model := model;
     chat_temperature := t |}.

Definition demo_args (extra : list string) : Args :=
  {| filename := "main.c";
     remaining := extra;
     args_verbose := false;
     args_raw_output := false;
     args_ai_model := "" |}.

(** A machine with the environment file, the verifier and the program
    [main.c]; the verifier ends with [code] after writing [out] and [err]. *)
Definition demo_world (code : Z) (out err : string) : World :=
  {| path_exists := fun p => orb (p =? ".env") (p =? "./esbmc");
     file_text := fun p => if p =? "main.c" then Some "int main() { return 0; }" else None;
     run_child := fun cmd =>
       Some {| returncode := code;
               stdout_data := bytes_of_string out;
               stderr_data := bytes_of_string err |} |}.

Definition no_repr (l : list string) : string := String.concat ", " l.


(** A machine where the verifier path exists but nothing can be started
    from it, and one without the environment file. *)
Definition unstartable_world : World :=
  {| path_exists := fun p => orb (p =? ".env") (p =? "./esbmc");
     file_text := fun p => if p =? "main.c" then Some "int main() { return 0; }" else None;
     run_child := fun _ => None |}.

Definition no_env_world : World :=
  {| path_exists := fun p => p =? "./esbmc";
     file_text := fun p => if p =? "main.c" then Some "int main() { return 0; }" else None;
     run_child := fun _ => None |}.

Definition demo_chat_module : ChatModule := spec_chat_module counting_backend demo_persona.

Definition offline_chat_module : ChatModule := spec_chat_module failing_backend demo_persona.

Definition no_verifier_world : World :=
  {| path_exists := fun p => p =? ".env";
     file_text := fun p => if p =? "main.c" then Some "int main() { return 0; }" else None;
     run_child := fun _ => None |}.
(** ** Properties stated about the driver *)

Definition first_char (s : string) : option ascii :=
  match s with
  | EmptyString => None
  | String c _ => Some c
  end.

Fixpoint last_char (s : string) : option ascii :=
  match s with
  | EmptyString => None
  | String c EmptyString => Some c
  | String _ s' => last_char s'
  end.

(** The text after every backslash-n has been made a line break. *)
Definition unescape_newlines (s : string) : string :=
  str_replace s ESCAPED_NL NEWLINE.

Definition is_quote (q : ascii) : Prop := q = squote \/ q = dquote.

(** One byte as it stands in the text the runner returns, when no match
    of backslash-n straddles two bytes: a line break for the newline byte,
    the [repr] form for every other byte. *)
Definition render_byte (quote : ascii) (c : byte) : string :=
  if (ascii_of_byte c =? LF)%char then NEWLINE else repr_byte quote c.

Fixpoint render_body (quote : ascii) (bs : list byte) : string :=
  match bs with
  | [] => ""
  | c :: bs' => render_byte quote c ++ render_body quote bs'
  end.

(** A backslash byte directly before the byte of the letter n. *)
Fixpoint backslash_before_n (bs : list byte) : bool :=
  match bs with
  | [] => false
  | c :: bs' =>
      match bs' with
      | d :: _ =>
          ((ascii_of_byte c =? backslash)%char && (ascii_of_byte d =? "n")%char)
          || backslash_before_n bs'
      | [] => false
      end
  end.

Definition quoted (quote : ascii) (body : string) : string :=
  String "b" (String quote (body ++ String quote "")).

(** What a message printed under a flag adds to the trace. *)
Definition say (flag : bool) (m : string) : list Event :=
  if flag then [Print m] else [].

(** Events that reach the chat object, and events that start a child. *)
Definition touches_chat (e : Event) : bool :=
  match e with
  | ChatNew _ | SendMessage _ => true
  | _ => false
  end.

Definition starts_child (e : Event) : bool :=
  match e with
  | Spawn _ => true
  | _ => false
  end.

(** Events that only show text. *)
Definition is_output (e : Event) : bool :=
  match e with
  | Print _ | Prompt _ => true
  | _ => false
  end.

(** The commands of the children a trace starts. *)
Fixpoint spawned (t : list Event) : list (list string) :=
  match t with
  | [] => []
  | Spawn cmd :: t' => cmd :: spawned t'
  | _ :: t' => spawned t'
  end.

(** The progress indicator along a trace.  It is [Hidden] until
    [anim.start], [Shown] until the call it announces is made, [Busy]
    while that call is in flight, and [Hidden] again after [anim.stop].
    A verifier or chat call with the indicator hidden, a second start, a
    stop with nothing shown, and anything but the call and the stop while
    it is shown, have no next state. *)
Inductive Indicator := Hidden | Shown | Busy.

Definition indicator_step (s : Indicator) (e : Event) : option Indicator :=
  match s, e with
  | Hidden, AnimStart _ => Some Shown
  | Hidden, (AnimStop | Spawn _ | SendMessage _) => None
  | Hidden, _ => Some Hidden
  | Shown, (Spawn _ | SendMessage _) => Some Busy
  | Shown, _ => None
  | Busy, AnimStop => Some Hidden
  | Busy, _ => None
  end.

Fixpoint indicator (s : Indicator) (t : list Event) : option Indicator :=
  match t with
  | [] => Some s
  | e :: t' =>
      match indicator_step s e with
      | Some s' => indicator s' t'
      | None => None
      end
  end.

(** Whether a run ended by an exception of the call the indicator
    announces: the start of the child, or the chat call. *)
Definition call_raised {A} (o : Outcome A) : bool :=
  match o with
  | Raised SpawnError | Raised (BackendError _) => true
  | _ => false
  end.

Section DriverPhases.

Context {chat_module : ChatModule}.
Variable w : World.
Variable config : Config.
Variable repr_params : list string -> string.

(** [main] from the test of the exit code on (lines 189 to 195). *)
Definition verdict (exit_code : Z) (esbmc_output : string) : Run unit :=
  if (exit_code =? 0)%Z then
    print "Success!";; print esbmc_output;; exit 0
  else if negb (exit_code =? 1)%Z then
    print ("ESBMC exit code: " ++ str_int exit_code);; exit 1
  else ret tt.

(** The first prompt of a session. *)
Definition first_prompt : string :=
  if negb (cfg_initial_prompt config =? "") then cfg_initial_prompt config
  else DEFAULT_PROMPT.

(** [main] from the preparation of the chat on (lines 197 to 243). *)
Definition conversation (source_code esbmc_output : string) (lines : list string) : Run unit :=
  printv config "Initializing OpenAI";;
  system_messages <- build_system_messages config source_code esbmc_output;;
  emit (ChatNew system_messages);;
  let chat := new_ChatInterface system_messages (ai_model config) (chat_temperature config) in
  printv config ("Using AI Model: " ++ model_name chat);;
  '(chat, response) <-
    (if negb (cfg_initial_prompt config =? "") then
       printv config ("Using initial prompt from file..." ++ NEWLINE);;
       emit (AnimStart "Model is parsing ESBMC output... Please Wait");;
       r <- call_send_message chat (cfg_initial_prompt config);;
       emit AnimStop;;
       ret r
     else
       printv config ("Using default initial prompts..." ++ NEWLINE);;
       emit (AnimStart "Model is parsing ESBMC output... Please Wait");;
       r <- call_send_message chat DEFAULT_PROMPT;;
       emit AnimStop;;
       ret r);;
  print_assistant_response config chat response;;
  loop config chat lines.

(** The command line of the child [main] starts. *)
Definition verifier_cmd (args : Args) : list string :=
  (esbmc_path config :: esbmc_params config ++ [filename args])%list.


(** The trace of the two health checks when both pass. *)
Definition health_events (args : Args) : list Event :=
  ([Print "ESBMC-AI"; Print ""]
   ++ say (args_verbose args) "Performing init health check..."
   ++ say (args_verbose args) "Environment file has been located"
   ++ say (verbose config) "Performing health check..."
   ++ say (verbose config) "ESBMC has been located")%list.

(** The trace of [main] up to the return of the verifier. *)
Definition startup_events (args : Args) : list Event :=
  (health_events args
   ++ say (verbose config) "Reading source code..."
   ++ say (verbose config) ("Running ESBMC with " ++ repr_params (esbmc_params config))
   ++ [ReadFile (filename args);
       AnimStart "ESBMC is processing... Please Wait";
       Spawn (verifier_cmd args);
       AnimStop])%list.

(** The trace of a line that is empty or [/help]. *)
Definition noop_events (line : string) : list Event :=
  Prompt ">: " ::
  (if line =? "/help" then
     [Print ""; Print "Commands:"; Print "/help: Print this help message.";
      Print "/exit: Exit the program."; Print ""]
   else []).

End DriverPhases.

(** A run after the events [t]. *)
Definition prepend {A} (t : list Event) (r : Run A) : Run A :=
  ((t ++ fst r)%list, snd r).

(** The text the runner would return if [repr] always quoted with single
    quotes and every byte were shown on its own. *)
Definition single_quoted_text (bs : list byte) : string :=
  quoted squote (render_body squote bs).

(** The four messages that follow the persona messages. *)
Definition grounding_messages (source_code esbmc_output : string) : list Message :=
  [ {| role := "system";
       content := "Reply OK if you understand that the following text is the program source code: " ++ source_code |};
    {| role := "assistant"; content := "OK" |};
    {| role := "system";
       content := "Reply OK if you understand that the following text is the output from ESBMC after reading the program source code: " ++ esbmc_output |};
    {| role := "assistant"; content := "OK" |} ].

(** Where the indicator is when a run is over: at [s'] if the run
    returned, [Busy] if it ended by an exception of the announced call,
    [Hidden] in every other case. *)
Definition ends_in {A} (o : Outcome A) (s' : Indicator) : Indicator :=
  match o with
  | Returned _ => s'
  | _ => if call_raised o then Busy else Hidden
  end.

(** The run [r] takes the indicator from [s] to [s'], or ends. *)
Definition tracks {A} (s : Indicator) (r : Run A) (s' : Indicator) : Prop :=
  indicator s (fst r) = Some (ends_in (snd r) s').

(** C4 as stated: the indicator is hidden at the end of the run. *)
Definition always_stopped {A} (r : Run A) : Prop :=
  indicator Hidden (fst r) = Some Hidden.

Section SeedTranscript.

Context {chat_module : ChatModule}.

(** The messages before the grounding messages: the configured ones, or
    the default persona messages. *)
Definition persona_messages (config : Config) : list Message :=
  match cfg_sys_msg config with
  | Messages msgs => msgs
  | EmptyStr => SYSTEM_MSG_DEFAULT
  end.

(** What a line that is no command and not empty starts with: the
    prompt, an empty line, the indicator and the chat call with the line
    as it was typed. *)
Definition send_events (line : string) : list Event :=
  [Prompt ">: "; Print ""; AnimStart "Generating response... Please Wait";
   SendMessage line].

End SeedTranscript.

(** ** Further properties of the driver *)

(** The texts a trace hands to [send_message], in order. *)
Fixpoint sent (t : list Event) : list string :=
  match t with
  | [] => []
  | SendMessage text :: t' => text :: sent t'
  | _ :: t' => sent t'
  end.

(** The lines the loop hands to the chat object when every call returns:
    the lines before the first [/exit] that are neither [/help] nor
    empty. *)
Fixpoint typed_messages (lines : list string) : list string :=
  match lines with
  | [] => []
  | line :: rest =>
      if line =? "/exit" then []
      else if line =? "/help" then typed_messages rest
      else if line =? "" then typed_messages rest
      else line :: typed_messages rest
  end.

Definition is_print (e : Event) : bool :=
  match e with
  | Print _ => true
  | _ => false
  end.

(** What a run does besides printing. *)
Definition actions (t : list Event) : list Event :=
  filter (fun e => negb (is_print e)) t.

(** Two runs that differ in what they print only. *)
Definition same_actions {A} (r r' : Run A) : Prop :=
  actions (fst r) = actions (fst r') /\ snd r = snd r'.

(** The characters from the space to the tilde. *)
Definition printable (c : ascii) : bool :=
  ((32 <=? nat_of_ascii c) && (nat_of_ascii c <? 127))%nat.

Fixpoint all_chars (p : ascii -> bool) (s : string) : bool :=
  match s with
  | EmptyString => true
  | String c s' => p c && all_chars p s'
  end.

Definition printable_or_break (c : ascii) : bool :=
  printable c || (c =? LF)%char.

(** The statuses the program ends with when it ends by [exit]. *)
Definition exit_status_ok {A} (r : Run A) : Prop :=
  match snd r with
  | Exited status => status = 0%Z \/ status = 1%Z \/ status = 3%Z
  | _ => True
  end.

Definition never_returns {A} (r : Run A) : Prop :=
  match snd r with
  | Returned _ => False
  | _ => True
  end.

(** Every event of the run satisfies [p]. *)
Definition all_events {A} (p : Event -> bool) (r : Run A) : Prop :=
  forallb p (fst r) = true.

(** The run starts no child, or one child, with the command [cmd]. *)
Definition spawns_at_most {A} (cmd : list string) (r : Run A) : Prop :=
  spawned (fst r) = [] \/ spawned (fst r) = [cmd].

Section Flags.

Context {chat_module : ChatModule}.

(** The configuration with other output flags. *)
Definition with_flags (config : Config) (v r : bool) : Config :=
  {| esbmc_path := esbmc_path config;
     esbmc_params := esbmc_params config;
     verbose := v;
     raw_responses := r;
     cfg_sys_msg := cfg_sys_msg config;
     cfg_initial_prompt := cfg_initial_prompt config;
     ai_model := ai_model config;
     chat_temperature := chat_temperature config |}.

(** The command line with another verbose flag. *)
Definition with_verbose (args : Args) (v : bool) : Args :=
  {| filename := filename args;
     remaining := remaining args;
     args_verbose := v;
     args_raw_output := args_raw_output args;
     args_ai_model := args_ai_model args |}.

End Flags.

Definition is_some {X} (o : option X) : bool :=
  match o with
  | Some _ => true
  | None => false
  end.

(** Events of the loop and of the chat phase: everything but reading a
    file and starting a child. *)
Definition is_session_event (e : Event) : bool :=
  match e with
  | ReadFile _ | Spawn _ => false
  | _ => true
  end.

(** The same machine with verifiers that write nothing to their error
    stream. *)
Definition without_stderr (w : World) : World :=
  {| path_exists := path_exists w;
     file_text := file_text w;
     run_child := fun cmd =>
       match run_child w cmd with
       | Some c =>
           Some {| returncode := returncode c;
                   stdout_data := stdout_data c;
                   stderr_data := [] |}
       | None => None
       end |}.

(** A machine where the program [main.c] cannot be read. *)
Definition no_source_world : World :=
  {| path_exists := fun p => orb (p =? ".env") (p =? "./esbmc");
     file_text := fun _ => None;
     run_child := fun _ => None |}.

Section Loading.

Context {chat_module : ChatModule}.


End Loading.


(** ** Sample texts *)

Example bytes_repr_plain :
  bytes_repr (bytes_of_string "VERIFICATION SUCCESSFUL") = "b'VERIFICATION SUCCESSFUL'".
Proof. reflexivity. Qed.

Example bytes_repr_newline :
  bytes_repr (bytes_of_string (String "a" (String LF "b"))) = "b'a\nb'".
Proof. reflexivity. Qed.

Example bytes_repr_control :
  bytes_repr (bytes_of_string (String "009" (String "001" (String "255" ""))))
  = "b'\t\x01\xff'".
Proof. reflexivity. Qed.

Example bytes_repr_squote :
  bytes_repr (bytes_of_string "it's") = String "b" (String dquote ("it's" ++ String dquote "")).
Proof. reflexivity. Qed.

Example bytes_repr_both_quotes :
  bytes_repr (bytes_of_string (String squote (String dquote "")))
  = String "b" (String squote (String backslash (String squote (String dquote (String squote ""))))).
Proof. reflexivity. Qed.

Example str_replace_ex :
  str_replace "b'a\nb\\n'" ESCAPED_NL NEWLINE
  = String "b" (String squote (String "a" (String LF (String "b" (String backslash (String LF (String squote ""))))))).
Proof. reflexivity. Qed.

Example str_int_ex : str_int (-11) = "-11" /\ str_int 0 = "0" /\ str_int 139 = "139".
Proof. repeat split. Qed.

(** The chat object used in the sample runs keeps the transcript: a sent
    line is appended as a user message, the reply as an assistant
    message. *)
Example spec_send_message_history :
  match spec_send_message counting_backend
          {| history := demo_persona; spec_model := "gpt" |} " /exit" with
  | inl (chat, _) =>
      history chat
      = (demo_persona
         ++ [ {| role := "user"; content := " /exit" |};
              {| role := "assistant"; content := "reply to 2 messages" |} ])%list
  | inr _ => False
  end.
Proof. reflexivity. Qed.
(** ** Text replacement *)

Lemma append_empty_r (s : string) : s ++ "" = s.
Proof. induction s as [|c s IH]; simpl; [reflexivity | now rewrite IH]. Qed.

Lemma append_associative (a b c : string) : (a ++ b) ++ c = a ++ (b ++ c).
Proof. induction a as [|x a IH]; simpl; [reflexivity | now rewrite IH]. Qed.

Lemma prefix_empty (s : string) : prefix "" s = true.
Proof. destruct s; reflexivity. Qed.

Lemma unescape_empty : unescape_newlines "" = "".
Proof. reflexivity. Qed.

Lemma prefix_cons (a b : ascii) (s1 s2 : string) :
  prefix (String a s1) (String b s2)
  = if ascii_dec a b then prefix s1 s2 else false.
Proof. reflexivity. Qed.

Lemma replace_from_scan (old new : string) (c : ascii) (s : string) :
  replace_from 0 old new (String c s)
  = if prefix old (String c s)
    then new ++ replace_from (String.length old - 1) old new s
    else String c (replace_from 0 old new s).
Proof. reflexivity. Qed.

Lemma replace_from_drop (k : nat) (old new : string) (c : ascii) (s : string) :
  replace_from (S k) old new (String c s) = replace_from k old new s.
Proof. reflexivity. Qed.

Lemma unescape_match (r : string) :
  unescape_newlines (String backslash (String "n" r)) = String LF (unescape_newlines r).
Proof.
  unfold unescape_newlines, str_replace, ESCAPED_NL.
  rewrite replace_from_scan, !prefix_cons.
  destruct (ascii_dec backslash backslash) as [_|N]; [|congruence].
  destruct (ascii_dec "n" "n") as [_|N]; [|congruence].
  rewrite prefix_empty. cbn [String.length Nat.sub].
  rewrite replace_from_drop. reflexivity.
Qed.

Lemma unescape_skip (c : ascii) (r : string) :
  (c = backslash -> first_char r <> Some "n"%char) ->
  unescape_newlines (String c r) = String c (unescape_newlines r).
Proof.
  intros H. unfold unescape_newlines, str_replace, ESCAPED_NL.
  rewrite replace_from_scan.
  destruct r as [|d r].
  - destruct c as [[] [] [] [] [] [] [] []]; reflexivity.
  - rewrite !prefix_cons.
    destruct (ascii_dec backslash c) as [<-|Hc]; [|reflexivity].
    destruct (ascii_dec "n" d) as [<-|Hd]; [|reflexivity].
    exfalso. now apply H.
Qed.

Lemma first_char_append (a b : string) :
  a <> "" -> first_char (a ++ b) = first_char a.
Proof. destruct a; [congruence | reflexivity]. Qed.

Lemma first_char_unescape (s : string) (c : ascii) :
  first_char (unescape_newlines s) = Some c ->
  c = LF \/ first_char s = Some c.
Proof.
  destruct s as [|x s]; [discriminate|].
  destruct (ascii_dec x backslash) as [->|Hx].
  - destruct s as [|d s].
    + cbn. auto.
    + destruct (ascii_dec d "n") as [->|Hd].
      * rewrite unescape_match. cbn. intros [= <-]. now left.
      * rewrite unescape_skip by (cbn; congruence). cbn. auto.
  - rewrite unescape_skip by congruence. cbn. auto.
Qed.

(** Replacement goes through a concatenation unless a match straddles
    the seam. *)
Lemma unescape_append (a b : string) :
  (last_char a = Some backslash -> first_char b <> Some "n"%char) ->
  unescape_newlines (a ++ b) = unescape_newlines a ++ unescape_newlines b.
Proof.
  induction a as [|c a IH]; intros Hseam; [reflexivity|].
  destruct a as [|d a].
  - cbn [append]. rewrite (unescape_skip c b).
    + now rewrite (unescape_skip c "") by (cbn; congruence).
    + intros ->. now apply Hseam.
  - assert (Hseam' : last_char (String d a) = Some backslash ->
                     first_char b <> Some "n"%char) by exact Hseam.
    specialize (IH Hseam').
    destruct (ascii_dec c backslash) as [->|Hc].
    + destruct (ascii_dec d "n") as [->|Hd].
      * cbn [append] in *. rewrite !unescape_match.
        rewrite !(unescape_skip "n") in IH by discriminate.
        cbn [append] in IH. injection IH as IH. cbn [append]. now rewrite IH.
      * cbn [append] in *.
        rewrite !(unescape_skip backslash) by (cbn; congruence).
        cbn [append]. now rewrite IH.
    + cbn [append] in *. rewrite !(unescape_skip c) by congruence.
      cbn [append]. now rewrite IH.
Qed.

(** An induction that steps over one or two characters. *)
Lemma string_pair_ind (P : string -> Prop) :
  P "" ->
  (forall c, P (String c "")) ->
  (forall c d s, P s -> P (String d s) -> P (String c (String d s))) ->
  forall s, P s.
Proof.
  intros H0 H1 H2 s.
  enough (P s /\ forall c, P (String c s)) by tauto.
  induction s as [|d s [IHs IHc]]; split; auto.
Qed.

Lemma unescape_no_escaped_newline (s : string) :
  ~ occurs ESCAPED_NL (unescape_newlines s).
Proof.
  induction s as [|c|c d s IHs IHd] using string_pair_ind;
    intros (x & y & E); unfold ESCAPED_NL in E.
  - rewrite unescape_empty in E. destruct x; discriminate.
  - rewrite unescape_skip, unescape_empty in E by (cbn; congruence).
    destruct x as [|? [|? ?]]; discriminate.
  - destruct (ascii_dec c backslash) as [->|Hc].
    + destruct (ascii_dec d "n") as [->|Hd].
      * rewrite unescape_match in E.
        destruct x as [|x0 x]; cbn [append] in E; [discriminate|].
        injection E as _ E. apply IHs. now exists x, y.
      * rewrite unescape_skip in E by (cbn; congruence).
        destruct x as [|x0 x]; cbn [append] in E.
        -- injection E as E.
           assert (F : first_char (unescape_newlines (String d s)) = Some "n"%char)
             by now rewrite E.
           apply first_char_unescape in F. destruct F as [F|F]; [discriminate|].
           cbn in F. congruence.
        -- injection E as _ E. apply IHd. now exists x, y.
    + rewrite unescape_skip in E by congruence.
      destruct x as [|x0 x]; cbn [append] in E.
      * injection E as E _. congruence.
      * injection E as _ E. apply IHd. now exists x, y.
Qed.

Lemma unescape_unchanged (s : string) :
  ~ occurs ESCAPED_NL s -> unescape_newlines s = s.
Proof.
  induction s as [|c s IH]; intros H; [reflexivity|].
  rewrite unescape_skip.
  - f_equal. apply IH. intros (x & y & ->). apply H.
    now exists (String c x), y.
  - intros -> F. destruct s as [|d s]; [discriminate|].
    injection F as ->. apply H. now exists "", s.
Qed.

Lemma unescape_occurrence (a b : string) :
  unescape_newlines (a ++ ESCAPED_NL ++ b)
  = unescape_newlines a ++ NEWLINE ++ unescape_newlines b.
Proof.
  rewrite unescape_append by (intros _; discriminate).
  f_equal. apply unescape_match.
Qed.

(** ** The text of a bytes object *)

Lemma repr_quote_is_quote (bs : list byte) : is_quote (repr_quote bs).
Proof.
  unfold repr_quote, is_quote.
  destruct (has_byte squote bs && negb (has_byte dquote bs))%bool; auto.
Qed.

Lemma repr_byte_not_empty (q : ascii) (c : byte) : repr_byte q c <> "".
Proof.
  unfold repr_byte.
  repeat match goal with |- context [if ?b then _ else _] => destruct b end;
    discriminate.
Qed.

Lemma repr_byte_last (q : ascii) (c : byte) :
  is_quote q ->
  last_char (repr_byte q c) = Some backslash -> ascii_of_byte c = backslash.
Proof.
  intros [-> | ->]; destruct c; vm_compute; intros H;
    solve [reflexivity | discriminate H].
Qed.

Lemma repr_byte_first (q : ascii) (c : byte) :
  is_quote q ->
  first_char (repr_byte q c) = Some "n"%char -> ascii_of_byte c = "n"%char.
Proof.
  intros [-> | ->]; destruct c; vm_compute; intros H;
    solve [reflexivity | discriminate H].
Qed.

Lemma unescape_repr_byte (q : ascii) (c : byte) :
  is_quote q -> unescape_newlines (repr_byte q c) = render_byte q c.
Proof. intros [-> | ->]; destruct c; reflexivity. Qed.

Lemma first_char_repr_body (q : ascii) (bs : list byte) :
  is_quote q ->
  first_char (repr_body q bs) = Some "n"%char ->
  exists d bs', bs = d :: bs' /\ ascii_of_byte d = "n"%char.
Proof.
  intros Hq. destruct bs as [|d bs']; [discriminate|].
  cbn [repr_body]. rewrite first_char_append by apply repr_byte_not_empty.
  intros H. exists d, bs'. split; [reflexivity|]. now apply repr_byte_first with q.
Qed.

Lemma unescape_repr_body (q : ascii) (bs : list byte) :
  is_quote q ->
  backslash_before_n bs = false ->
  unescape_newlines (repr_body q bs) = render_body q bs.
Proof.
  intros Hq. induction bs as [|c bs IH]; intros Hpair; [reflexivity|].
  cbn [repr_body render_body].
  rewrite unescape_append.
  - rewrite unescape_repr_byte by assumption. f_equal. apply IH.
    cbn [backslash_before_n] in Hpair. destruct bs as [|d bs]; [reflexivity|].
    now apply orb_false_elim in Hpair.
  - intros Hlast Hfirst.
    apply repr_byte_last in Hlast; [|assumption].
    apply first_char_repr_body in Hfirst; [|assumption].
    destruct Hfirst as (d & bs' & -> & Hd).
    cbn [backslash_before_n] in Hpair.
    rewrite Hlast, Hd in Hpair. discriminate Hpair.
Qed.

Lemma bytes_repr_quoted (bs : list byte) :
  bytes_repr bs = quoted (repr_quote bs) (repr_body (repr_quote bs) bs).
Proof. reflexivity. Qed.

Lemma unescape_quoted (q : ascii) (body : string) :
  is_quote q ->
  unescape_newlines (quoted q body) = quoted q (unescape_newlines body).
Proof.
  intros Hq. unfold quoted.
  rewrite (unescape_skip "b") by discriminate.
  rewrite (unescape_skip q) by (destruct Hq as [-> | ->]; discriminate).
  rewrite unescape_append by (intros _; destruct Hq as [-> | ->]; discriminate).
  do 3 f_equal.
  apply unescape_skip. destruct Hq as [-> | ->]; discriminate.
Qed.

(** ** Runs *)

Lemma bind_returned {A B} (m : Run A) (k : A -> Run B) (t : list Event) (a : A) :
  m = (t, Returned a) -> bind m k = prepend t (k a).
Proof. intros ->. unfold bind, prepend. now destruct (k a). Qed.

Lemma bind_exited {A B} (m : Run A) (k : A -> Run B) (t : list Event) (status : Z) :
  m = (t, Exited status) -> bind m k = (t, Exited status).
Proof. now intros ->. Qed.

Lemma bind_raised {A B} (m : Run A) (k : A -> Run B) (t : list Event) (e : Exn) :
  m = (t, Raised e) -> bind m k = (t, Raised e).
Proof. now intros ->. Qed.

Lemma bind_emit {B} (e : Event) (k : unit -> Run B) :
  bind (emit e) k = prepend [e] (k tt).
Proof. now apply bind_returned. Qed.

Lemma bind_print {B} (text : string) (k : unit -> Run B) :
  bind (print text) k = prepend [Print text] (k tt).
Proof. apply bind_emit. Qed.

Lemma prepend_nil {A} (r : Run A) : prepend [] r = r.
Proof. now destruct r. Qed.

Lemma prepend_prepend {A} (t t' : list Event) (r : Run A) :
  prepend t (prepend t' r) = prepend (t ++ t') r.
Proof. unfold prepend. cbn [fst snd]. now rewrite app_assoc. Qed.

Lemma prepend_pair {A} (t t' : list Event) (o : Outcome A) :
  prepend t (t', o) = ((t ++ t')%list, o).
Proof. reflexivity. Qed.

Lemma indicator_app (s : Indicator) (t t' : list Event) :
  indicator s (t ++ t') =
  match indicator s t with
  | Some s' => indicator s' t'
  | None => None
  end.
Proof.
  revert s. induction t as [|e t IH]; intros s; [reflexivity|].
  cbn [app indicator]. destruct (indicator_step s e); [apply IH | reflexivity].
Qed.

Lemma indicator_output (t : list Event) :
  forallb is_output t = true -> indicator Hidden t = Some Hidden.
Proof.
  induction t as [|e t IH]; [reflexivity|].
  cbn [forallb]. intros H. apply andb_prop in H. destruct H as [He Ht].
  destruct e; try discriminate He; cbn; auto.
Qed.

Lemma say_output (flag : bool) (m : string) : forallb is_output (say flag m) = true.
Proof. now destruct flag. Qed.

Section DriverFacts.

Context {chat_module : ChatModule}.
Variable w : World.
Variable config : Config.
Variable repr_params : list string -> string.

Lemma printv_run (m : string) : printv config m = (say (verbose config) m, Returned tt).
Proof. unfold printv, say. now destruct (verbose config). Qed.

Lemma bind_printv {B} (m : string) (k : unit -> Run B) :
  bind (printv config m) k = prepend (say (verbose config) m) (k tt).
Proof. apply bind_returned, printv_run. Qed.

Lemma main_phases (args : Args) (lines : list string) :
  main w config repr_params args lines =
  (print "ESBMC-AI";;
   print "";;
   init_check_health w (args_verbose args);;
   check_health w config;;
   printv config "Reading source code...";;
   printv config ("Running ESBMC with " ++ repr_params (esbmc_params config));;
   source_code <- get_src w (filename args);;
   emit (AnimStart "ESBMC is processing... Please Wait");;
   '(exit_code, esbmc_output, esbmc_err) <- esbmc w config (filename args) (esbmc_params config);;
   emit AnimStop;;
   verdict exit_code esbmc_output;;
   conversation config source_code esbmc_output lines).
Proof. reflexivity. Qed.

Lemma init_check_health_passes (v : bool) :
  path_exists w ".env" = true ->
  init_check_health w v =
  ((say v "Performing init health check..." ++ say v "Environment file has been located")%list,
   Returned tt).
Proof. intros H. unfold init_check_health. rewrite H. now destruct v. Qed.

Lemma init_check_health_fails (v : bool) :
  path_exists w ".env" = false ->
  init_check_health w v =
  ((say v "Performing init health check..."
    ++ [Print "Error: .env file is not found in project directory"])%list,
   Exited 3).
Proof. intros H. unfold init_check_health. rewrite H. now destruct v. Qed.

Lemma check_health_passes :
  path_exists w (esbmc_path config) = true ->
  check_health w config =
  ((say (verbose config) "Performing health check..."
    ++ say (verbose config) "ESBMC has been located")%list,
   Returned tt).
Proof.
  intros H. unfold check_health, printv. rewrite H. now destruct (verbose config).
Qed.

Lemma check_health_fails :
  path_exists w (esbmc_path config) = false ->
  check_health w config =
  ((say (verbose config) "Performing health check..."
    ++ [Print ("Error: ESBMC could not be found in " ++ esbmc_path config)])%list,
   Exited 3).
Proof.
  intros H. unfold check_health, printv. rewrite H. now destruct (verbose config).
Qed.

Lemma get_src_reads (path source : string) :
  file_text w path = Some source ->
  get_src w path = ([ReadFile path], Returned source).
Proof. intros H. unfold get_src. now rewrite H. Qed.

Lemma get_src_fails (path : string) :
  file_text w path = None ->
  get_src w path = ([ReadFile path], Raised FileError).
Proof. intros H. unfold get_src. now rewrite H. Qed.

(** The runner returns the exit code, the text of the piped output, and
    the text of [None] for the stream that is not piped. *)
Lemma esbmc_returns (path : string) (params : list string) (c : Child) :
  run_child w (esbmc_path config :: params ++ [path])%list = Some c ->
  esbmc w config path params =
  ([Spawn (esbmc_path config :: params ++ [path])%list],
   Returned (returncode c, unescape_newlines (bytes_repr (stdout_data c)), "None")).
Proof. intros H. unfold esbmc, Popen. cbn [app]. now rewrite H. Qed.

Lemma esbmc_fails (path : string) (params : list string) :
  run_child w (esbmc_path config :: params ++ [path])%list = None ->
  esbmc w config path params =
  ([Spawn (esbmc_path config :: params ++ [path])%list], Raised SpawnError).
Proof. intros H. unfold esbmc, Popen. cbn [app]. now rewrite H. Qed.

(** [main] up to the return of the verifier, when the checks pass, the
    source file opens and the child starts. *)
Lemma main_startup (args : Args) (lines : list string) (source : string) (c : Child) :
  path_exists w ".env" = true ->
  path_exists w (esbmc_path config) = true ->
  file_text w (filename args) = Some source ->
  run_child w (verifier_cmd config args) = Some c ->
  main w config repr_params args lines =
  prepend (startup_events config repr_params args)
    (verdict (returncode c) (unescape_newlines (bytes_repr (stdout_data c)));;
     conversation config source (unescape_newlines (bytes_repr (stdout_data c))) lines).
Proof.
  intros Henv Hbin Hsrc Hrun. rewrite main_phases.
  rewrite !bind_print.
  rewrite (bind_returned _ _ _ _ (init_check_health_passes _ Henv)).
  rewrite (bind_returned _ _ _ _ (check_health_passes Hbin)).
  rewrite !bind_printv.
  rewrite (bind_returned _ _ _ _ (get_src_reads _ _ Hsrc)).
  rewrite bind_emit.
  rewrite (bind_returned _ _ _ _ (esbmc_returns _ _ _ Hrun)).
  rewrite bind_emit.
  rewrite !prepend_prepend.
  unfold startup_events, health_events.
  f_equal. rewrite <- !app_assoc. reflexivity.
Qed.

End DriverFacts.

(** ** The verifier runner *)

Section RunnerClaims.

Context {chat_module : ChatModule}.
Variable w : World.
Variable config : Config.

(** C6.  For the output stream the runner does what C6 says: every
    backslash-n of the converted text, [str] of the bytes read from the
    pipe, is made a line break; the text around an occurrence is converted
    on each side and joined by a line break, no backslash-n is left in the
    result, and a text without one is returned as it is.  For the error
    stream it does not: that stream is not piped, so the error text
    returned is the text of [None] whatever the verifier wrote, and it is
    never the converted text of the bytes on the error stream with its
    backslash-n made line breaks. *)
Theorem C6_escaped_newlines_become_line_breaks
    (path : string) (params : list string) (c : Child) :
  run_child w (esbmc_path config :: params ++ [path])%list = Some c ->
  exists output err,
    snd (esbmc w config path params) = Returned (returncode c, output, err)
    /\ (forall a b : string,
          py_str (Some (stdout_data c)) = a ++ ESCAPED_NL ++ b ->
          output = str_replace a ESCAPED_NL NEWLINE ++ NEWLINE
                   ++ str_replace b ESCAPED_NL NEWLINE)
    /\ ~ occurs ESCAPED_NL output
    /\ (~ occurs ESCAPED_NL (py_str (Some (stdout_data c))) ->
        output = py_str (Some (stdout_data c)))
    /\ err = "None"
    /\ err <> str_replace (py_str (Some (stderr_data c))) ESCAPED_NL NEWLINE.
Proof.
  intros Hrun. rewrite (esbmc_returns w config path params c Hrun). cbn [snd].
  eexists _, _. split; [reflexivity|]. cbn [py_str].
  split; [|split; [|split; [|split]]].
  - intros a b E. rewrite E. apply unescape_occurrence.
  - apply unescape_no_escaped_newline.
  - apply unescape_unchanged.
  - reflexivity.
  - fold (unescape_newlines (bytes_repr (stderr_data c))).
    rewrite bytes_repr_quoted, unescape_quoted by apply repr_quote_is_quote.
    unfold quoted. discriminate.
Qed.

(** C9, as the code has it.  The output text the runner returns starts
    with b and a quote and ends with the same quote; the quote is a single
    quote unless the bytes hold a single quote and no double quote, and
    then it is a double quote.  Between the quotes stands the [repr] body
    of the bytes with every backslash-n made a line break.  When no
    backslash byte stands directly before the byte of the letter n, that
    text shows every byte on its own: a line break for the newline byte
    and the [repr] form for every other byte, so the escapes for tab,
    carriage return, quote, backslash and other bytes stay as escaped
    text. *)
Theorem C9_output_is_unescaped_repr
    (path : string) (params : list string) (c : Child) :
  run_child w (esbmc_path config :: params ++ [path])%list = Some c ->
  exists quote body err,
    snd (esbmc w config path params) = Returned (returncode c, quoted quote body, err)
    /\ quote
       = (if (has_byte squote (stdout_data c) && negb (has_byte dquote (stdout_data c)))%bool
          then dquote else squote)
    /\ body = str_replace (repr_body quote (stdout_data c)) ESCAPED_NL NEWLINE
    /\ (backslash_before_n (stdout_data c) = false ->
        body = render_body quote (stdout_data c)).
Proof.
  intros Hrun. rewrite (esbmc_returns w config path params c Hrun). cbn [snd].
  exists (repr_quote (stdout_data c)).
  exists (unescape_newlines (repr_body (repr_quote (stdout_data c)) (stdout_data c))).
  eexists. split; [|split; [reflexivity|split; [reflexivity|]]].
  - rewrite bytes_repr_quoted, unescape_quoted by apply repr_quote_is_quote.
    reflexivity.
  - intros Hpair. apply unescape_repr_body; [apply repr_quote_is_quote | assumption].
Qed.

End RunnerClaims.

(** C6 at a verifier that writes the same two lines to its output and to
    its error stream: the output text has the line break, the error text
    is the text of [None]. *)
Lemma C6_witness :
  exists output err,
    snd (esbmc (chat_module := spec_chat_module counting_backend demo_persona)
           (demo_world 1 (String "a" (String LF "b")) (String "a" (String LF "b")))
           (demo_config (spec_chat_module counting_backend demo_persona) "gpt" tt)
           "main.c" ["--k-induction"])
    = Returned (1%Z, output, err)
    /\ output = String "b" (String squote (String "a" (String LF (String "b" (String squote "")))))
    /\ err = "None"
    /\ err <> String "b" (String squote (String "a" (String LF (String "b" (String squote ""))))).
Proof.
  destruct (C6_escaped_newlines_become_line_breaks
              (chat_module := spec_chat_module counting_backend demo_persona)
              (demo_world 1 (String "a" (String LF "b")) (String "a" (String LF "b")))
              (demo_config (spec_chat_module counting_backend demo_persona) "gpt" tt)
              "main.c" ["--k-induction"] _ eq_refl)
    as (output & err & Hret & Hout & _ & _ & Herr & Hdiff).
  exists output, err. split; [exact Hret|]. split; [|split].
  - exact (Hout "b'a" "b'" eq_refl).
  - exact Herr.
  - exact Hdiff.
Defined.

(** C9 at a verifier that writes a tab, a quoted word and a line break. *)
Lemma C9_witness :
  exists err,
    snd (esbmc (chat_module := spec_chat_module counting_backend demo_persona)
           (demo_world 1 (String "009" ("it's" ++ String LF "")) "")
           (demo_config (spec_chat_module counting_backend demo_persona) "gpt" tt)
           "main.c" ["--k-induction"])
    = Returned (1%Z,
                String "b" (String dquote ("\tit's" ++ String LF (String dquote ""))),
                err).
Proof.
  destruct (C9_output_is_unescaped_repr
              (chat_module := spec_chat_module counting_backend demo_persona)
              (demo_world 1 (String "009" ("it's" ++ String LF "")) "")
              (demo_config (spec_chat_module counting_backend demo_persona) "gpt" tt)
              "main.c" ["--k-induction"] _ eq_refl)
    as (quote & body & err & Hret & Hquote & _ & Hbody).
  exists err. rewrite Hret, (Hbody eq_refl), Hquote. reflexivity.
Defined.

(** C9 as stated fails: for the bytes of [it's\n] (a backslash and the
    letter n at the end) the text returned starts with b and a double
    quote, and the second backslash of the escaped backslash has become a
    line break. *)
Lemma C9_counterexample :
  let bs := bytes_of_string "it's\n" in
  let run := esbmc (chat_module := spec_chat_module counting_backend demo_persona)
               (demo_world 1 "it's\n" "")
               (demo_config (spec_chat_module counting_backend demo_persona) "gpt" tt)
               "main.c" ["--k-induction"] in
  bytes_repr bs = String "b" (String dquote ("it's\\n" ++ String dquote ""))
  /\ snd run
     = Returned (1%Z,
                 String "b" (String dquote ("it's\" ++ String LF (String dquote ""))),
                 "None")
  /\ snd run <> Returned (1%Z, single_quoted_text bs, "None")
  /\ prefix "b'" (String "b" (String dquote ("it's\" ++ String LF (String dquote "")))) = false.
Proof. cbv zeta. repeat split. discriminate. Qed.

(** C3: the error stream of the child is not piped, so whatever the
    verifier writes to it, the error text the runner returns is the text
    of [None]. *)
Theorem C3_error_stream_not_captured :
  (forall (M : ChatModule) (w : World) (config : Config) (path : string)
          (params : list string),
      match snd (esbmc w config path params) with
      | Returned (_, _, err) => err = "None"
      | Raised e => e = SpawnError
      | Exited _ => False
      end)
  /\ (forall err_text : string,
        esbmc (chat_module := spec_chat_module counting_backend demo_persona)
          (demo_world 1 "VERIFICATION FAILED" err_text)
          (demo_config (spec_chat_module counting_backend demo_persona) "gpt" tt)
          "main.c" ["--k-induction"]
        = ([Spawn ["./esbmc"; "--k-induction"; "main.c"]],
           Returned (1%Z, "b'VERIFICATION FAILED'", "None"))).
Proof.
  split.
  - intros M w config path params.
    destruct (run_child w (esbmc_path config :: params ++ [path])%list) as [c|] eqn:Hrun.
    + now rewrite (esbmc_returns w config path params c Hrun).
    + now rewrite (esbmc_fails w config path params Hrun).
  - intros err_text. reflexivity.
Qed.

(** ** The progress indicator *)

Lemma tracks_bind {A B} (s s1 s2 : Indicator) (m : Run A) (k : A -> Run B) :
  tracks s m s1 -> (forall a, tracks s1 (k a) s2) -> tracks s (bind m k) s2.
Proof.
  destruct m as [t [a|status|e]]; unfold tracks; cbn [fst snd bind ends_in];
    intros Hm Hk; try exact Hm.
  specialize (Hk a). destruct (k a) as [t' o]. cbn [fst snd] in *.
  now rewrite indicator_app, Hm.
Qed.

Lemma tracks_ret {A} (s : Indicator) (a : A) : tracks s (ret a) s.
Proof. reflexivity. Qed.

Lemma tracks_print (text : string) : tracks Hidden (print text) Hidden.
Proof. reflexivity. Qed.

Lemma tracks_exit {A} (status : Z) (s' : Indicator) :
  tracks Hidden (exit (A := A) status) s'.
Proof. reflexivity. Qed.

Lemma tracks_start (text : string) : tracks Hidden (emit (AnimStart text)) Shown.
Proof. reflexivity. Qed.

Lemma tracks_stop : tracks Busy (emit AnimStop) Hidden.
Proof. reflexivity. Qed.

Lemma tracks_chat_new (msgs : list Message) : tracks Hidden (emit (ChatNew msgs)) Hidden.
Proof. reflexivity. Qed.

Create HintDb tracks.
#[local] Hint Resolve tracks_ret tracks_print tracks_exit tracks_start tracks_stop
  tracks_chat_new : tracks.

(** One step of a sequence: the first action by a known fact, then on. *)
Ltac split_result x :=
  lazymatch type of x with
  | (_ * _)%type =>
      let a := fresh "a" in
      let b := fresh "b" in
      destruct x as [a b]; try split_result a
  | _ => idtac
  end.

Ltac track_step :=
  eapply tracks_bind;
  [ solve [eauto with tracks]
  | let x := fresh "x" in intros x; split_result x ].

Section IndicatorFacts.

Context {chat_module : ChatModule}.
Variable w : World.
Variable config : Config.
Variable repr_params : list string -> string.

Lemma tracks_printv (m : string) : tracks Hidden (printv config m) Hidden.
Proof. unfold printv. destruct (verbose config); reflexivity. Qed.

Lemma tracks_init_check_health (v : bool) :
  tracks Hidden (init_check_health w v) Hidden.
Proof.
  unfold init_check_health. destruct (path_exists w ".env"), v; reflexivity.
Qed.

Lemma tracks_check_health : tracks Hidden (check_health w config) Hidden.
Proof.
  unfold check_health, printv.
  destruct (path_exists w (esbmc_path config)), (verbose config); reflexivity.
Qed.

Lemma tracks_get_src (path : string) : tracks Hidden (get_src w path) Hidden.
Proof. unfold get_src. destruct (file_text w path); reflexivity. Qed.

Lemma tracks_esbmc (path : string) (params : list string) :
  tracks Shown (esbmc w config path params) Busy.
Proof.
  unfold esbmc, Popen. cbn [app].
  destruct (run_child w _); reflexivity.
Qed.

Lemma tracks_call_send_message (chat : ChatInterface) (text : string) :
  tracks Shown (call_send_message chat text) Busy.
Proof.
  unfold call_send_message. destruct (send_message chat text) as [[chat' r]|d]; reflexivity.
Qed.

Lemma tracks_print_assistant_response (chat : ChatInterface) (response : Response) :
  tracks Hidden (print_assistant_response config chat response) Hidden.
Proof.
  unfold print_assistant_response.
  destruct (raw_responses config), (verbose config); reflexivity.
Qed.

Lemma tracks_build_system_messages (source output : string) :
  tracks Hidden (build_system_messages config source output) Hidden.
Proof.
  unfold build_system_messages, printv. destruct (verbose config); reflexivity.
Qed.

Lemma tracks_verdict (exit_code : Z) (output : string) :
  tracks Hidden (verdict exit_code output) Hidden.
Proof.
  unfold verdict. destruct (exit_code =? 0)%Z; [reflexivity|].
  destruct (exit_code =? 1)%Z; reflexivity.
Qed.

Lemma tracks_print_help : tracks Hidden print_help Hidden.
Proof. reflexivity. Qed.

#[local] Hint Resolve tracks_printv tracks_init_check_health tracks_check_health
  tracks_get_src tracks_esbmc tracks_call_send_message
  tracks_print_assistant_response tracks_build_system_messages tracks_verdict
  tracks_print_help : tracks.

Lemma tracks_loop (lines : list string) :
  forall chat, tracks Hidden (loop config chat lines) Hidden.
Proof.
  induction lines as [|user_message lines IH]; intros chat; [reflexivity|].
  cbn [loop].
  eapply tracks_bind; [reflexivity | intros _].
  destruct (user_message =? "/exit"); [reflexivity|].
  destruct (user_message =? "/help"); [track_step; apply IH|].
  destruct (user_message =? ""); [apply IH|].
  do 5 track_step. apply IH.
Qed.

Lemma tracks_conversation (source output : string) (lines : list string) :
  tracks Hidden (conversation config source output lines) Hidden.
Proof.
  unfold conversation.
  do 4 track_step.
  eapply tracks_bind.
  - destruct (negb (cfg_initial_prompt config =? "")).
    + do 4 track_step. apply tracks_ret.
    + do 4 track_step. apply tracks_ret.
  - intros [chat response]. track_step. apply tracks_loop.
Qed.

Lemma tracks_main (args : Args) (lines : list string) :
  tracks Hidden (main w config repr_params args lines) Hidden.
Proof.
  rewrite main_phases.
  do 11 track_step. apply tracks_conversation.
Qed.

(** C4, as the code has it.  Along every run of the program the indicator
    is started only while hidden, the next event after a start is the
    verifier or chat call it announces, and when that call returns the
    next event is the stop.  No stop follows a call that raises: the run
    ends there, so at the end of a run the indicator is still busy when
    the run ended by an exception of the announced call, and hidden in
    every other case. *)
Theorem C4_indicator_stopped_after_return (args : Args) (lines : list string) :
  indicator Hidden (fst (main w config repr_params args lines))
  = Some (if call_raised (snd (main w config repr_params args lines))
          then Busy else Hidden).
Proof.
  pose proof (tracks_main args lines) as H. unfold tracks in H. rewrite H.
  now destruct (snd (main w config repr_params args lines)).
Qed.

End IndicatorFacts.

(** C4 as stated fails: when the verifier cannot be started the run ends
    with the indicator still busy and no stop in the trace, and when the
    chat call raises the run ends at that call, the indicator still busy. *)
Lemma C4_counterexample :
  let run1 := main (chat_module := demo_chat_module) unstartable_world
                (demo_config demo_chat_module "gpt" tt) no_repr (demo_args []) [] in
  let run2 := main (chat_module := offline_chat_module) (demo_world 1 "VERIFICATION FAILED" "")
                (demo_config offline_chat_module "gpt" tt) no_repr (demo_args []) ["/exit"] in
  (snd run1 = Raised SpawnError /\ ~ In AnimStop (fst run1) /\ ~ always_stopped run1)
  /\ (snd run2 = Raised (BackendError "the backend call failed")
      /\ last (fst run2) AnimStop = SendMessage DEFAULT_PROMPT
      /\ ~ always_stopped run2).
Proof.
  cbv zeta. unfold always_stopped.
  repeat match goal with |- _ /\ _ => split end.
  - vm_compute. reflexivity.
  - vm_compute. intros H. repeat (destruct H as [H|H]; [discriminate H|]). exact H.
  - vm_compute. discriminate.
  - vm_compute. reflexivity.
  - vm_compute. reflexivity.
  - vm_compute. discriminate.
Qed.

(** ** The driver's decisions *)

Section MainClaims.

Context {chat_module : ChatModule}.
Variable w : World.
Variable config : Config.
Variable repr_params : list string -> string.

Lemma build_system_messages_run (source output : string) :
  build_system_messages config source output
  = (say (verbose config) "Loading system messages",
     Returned (persona_messages config ++ grounding_messages source output)%list).
Proof.
  unfold build_system_messages, printv, persona_messages.
  destruct (verbose config), (cfg_sys_msg config); reflexivity.
Qed.

(** C5.  For every source text and verifier output, the messages the
    bootstrap step builds are the configured system messages when the
    configuration gives some, the default persona messages otherwise,
    followed by exactly four messages in this order: a system message
    with the source code, an assistant message OK, a system message with
    the verifier output, an assistant message OK. *)
Theorem C5_seed_transcript_order (source_code esbmc_output : string) :
  let persona :=
    match cfg_sys_msg config with
    | Messages msgs => msgs
    | EmptyStr => SYSTEM_MSG_DEFAULT
    end in
  let n := List.length persona in
  exists msgs,
    snd (build_system_messages config source_code esbmc_output) = Returned msgs
    /\ msgs = (persona ++
        [ {| role := "system";
             content := "Reply OK if you understand that the following text is the program source code: " ++ source_code |};
          {| role := "assistant"; content := "OK" |};
          {| role := "system";
             content := "Reply OK if you understand that the following text is the output from ESBMC after reading the program source code: " ++ esbmc_output |};
          {| role := "assistant"; content := "OK" |} ])%list
    /\ firstn n msgs = persona
    /\ List.length msgs = n + 4
    /\ (exists m, nth_error msgs n = Some m /\ role m = "system"
                  /\ exists lead, content m = lead ++ source_code)
    /\ nth_error msgs (n + 1) = Some {| role := "assistant"; content := "OK" |}
    /\ (exists m, nth_error msgs (n + 2) = Some m /\ role m = "system"
                  /\ exists lead, content m = lead ++ esbmc_output)
    /\ nth_error msgs (n + 3) = Some {| role := "assistant"; content := "OK" |}.
Proof.
  cbv zeta. rewrite build_system_messages_run. cbn [snd].
  fold (persona_messages config). set (persona := persona_messages config).
  eexists. split; [reflexivity|]. split; [reflexivity|].
  split; [|split; [|split; [|split; [|split]]]].
  - rewrite firstn_app, Nat.sub_diag, firstn_all. cbn. apply app_nil_r.
  - rewrite length_app. reflexivity.
  - eexists. split; [|split; [|eexists]].
    + rewrite nth_error_app2, Nat.sub_diag by lia. reflexivity.
    + reflexivity.
    + reflexivity.
  - rewrite nth_error_app2 by lia.
    replace (List.length persona + 1 - List.length persona) with 1 by lia. reflexivity.
  - eexists. split; [|split; [|eexists]].
    + rewrite nth_error_app2 by lia.
      replace (List.length persona + 2 - List.length persona) with 2 by lia. reflexivity.
    + reflexivity.
    + reflexivity.
  - rewrite nth_error_app2 by lia.
    replace (List.length persona + 3 - List.length persona) with 3 by lia. reflexivity.
Qed.

Lemma startup_no_chat (args : Args) :
  existsb touches_chat (startup_events config repr_params args) = false.
Proof.
  unfold startup_events, health_events, say.
  destruct (args_verbose args), (verbose config); reflexivity.
Qed.

(** The first exchange, announced by [note]. *)
Lemma first_exchange (chat : ChatInterface) (note text : string) :
  (printv config note;;
   emit (AnimStart "Model is parsing ESBMC output... Please Wait");;
   r <- call_send_message chat text;;
   emit AnimStop;;
   ret r)
  = match send_message chat text with
    | inl r =>
        ((say (verbose config) note
          ++ [AnimStart "Model is parsing ESBMC output... Please Wait";
              SendMessage text; AnimStop])%list,
         Returned r)
    | inr detail =>
        ((say (verbose config) note
          ++ [AnimStart "Model is parsing ESBMC output... Please Wait";
              SendMessage text])%list,
         Raised (BackendError detail))
    end.
Proof.
  unfold printv, call_send_message.
  destruct (send_message chat text) as [r|detail], (verbose config); reflexivity.
Qed.

Lemma conversation_reaches_chat (source output : string) (lines : list string) :
  In (ChatNew (persona_messages config ++ grounding_messages source output)%list)
     (fst (conversation config source output lines))
  /\ In (SendMessage (first_prompt config))
        (fst (conversation config source output lines)).
Proof.
  unfold conversation.
  rewrite bind_printv.
  rewrite (bind_returned _ _ _ _ (build_system_messages_run source output)).
  rewrite bind_emit. cbv zeta. rewrite bind_printv.
  set (chat := new_ChatInterface _ _ _).
  unfold first_prompt.
  destruct (negb (cfg_initial_prompt config =? "")).
  - rewrite first_exchange.
    destruct (send_message chat (cfg_initial_prompt config)) as [[chat' r]|detail].
    + rewrite (bind_returned _ _ _ _ eq_refl).
      unfold prepend. cbn [fst]. rewrite !in_app_iff. cbn [In]. split; tauto.
    + rewrite (bind_raised _ _ _ _ eq_refl).
      unfold prepend. cbn [fst]. rewrite !in_app_iff. cbn [In]. split; tauto.
  - rewrite first_exchange.
    destruct (send_message chat DEFAULT_PROMPT) as [[chat' r]|detail].
    + rewrite (bind_returned _ _ _ _ eq_refl).
      unfold prepend. cbn [fst]. rewrite !in_app_iff. cbn [In]. split; tauto.
    + rewrite (bind_raised _ _ _ _ eq_refl).
      unfold prepend. cbn [fst]. rewrite !in_app_iff. cbn [In]. split; tauto.
Qed.

(** C1.  When the health checks pass, the source file opens and the
    verifier starts, the exit code of the verifier decides the run.  Code
    0: the program prints Success! and then the output text of the
    verifier and exits with status 0, and no event of the run reaches the
    chat object.  Code 1: the program goes on to the chat phase, which
    builds the chat on the seed messages and sends the first prompt.  Any
    other code: the program prints the exit code and exits with status 1,
    and no event of the run reaches the chat object. *)
Theorem C1_exit_code_classification
    (args : Args) (lines : list string) (source : string) (c : Child) :
  path_exists w ".env" = true ->
  path_exists w (esbmc_path config) = true ->
  file_text w (filename args) = Some source ->
  run_child w (verifier_cmd config args) = Some c ->
  let output := str_replace (py_str (Some (stdout_data c))) ESCAPED_NL NEWLINE in
  let run := main w config repr_params args lines in
  if (returncode c =? 0)%Z then
    run = ((startup_events config repr_params args
            ++ [Print "Success!"; Print output])%list, Exited 0)
    /\ existsb touches_chat (fst run) = false
  else if (returncode c =? 1)%Z then
    run = prepend (startup_events config repr_params args)
            (conversation config source output lines)
    /\ In (ChatNew (persona_messages config ++ grounding_messages source output)%list)
          (fst run)
    /\ In (SendMessage (first_prompt config)) (fst run)
  else
    run = ((startup_events config repr_params args
            ++ [Print ("ESBMC exit code: " ++ str_int (returncode c))])%list, Exited 1)
    /\ existsb touches_chat (fst run) = false.
Proof.
  intros Henv Hbin Hsrc Hrun. cbv zeta. cbn [py_str].
  rewrite (main_startup w config repr_params args lines source c Henv Hbin Hsrc Hrun).
  fold (unescape_newlines (bytes_repr (stdout_data c))).
  set (output := unescape_newlines (bytes_repr (stdout_data c))).
  unfold verdict.
  destruct (returncode c =? 0)%Z; [|destruct (returncode c =? 1)%Z; cbn [negb]].
  - rewrite (bind_exited (print "Success!";; print output;; exit 0) _
               [Print "Success!"; Print output] 0 eq_refl), prepend_pair.
    split; [reflexivity|]. cbn [fst].
    rewrite existsb_app, startup_no_chat. reflexivity.
  - rewrite (bind_returned (ret tt) _ [] tt eq_refl), prepend_nil.
    split; [reflexivity|].
    destruct (conversation_reaches_chat source output lines) as [Hnew Hsend].
    unfold prepend. cbn [fst]. rewrite !in_app_iff. tauto.
  - rewrite (bind_exited (print ("ESBMC exit code: " ++ str_int (returncode c));; exit 1) _
               [Print ("ESBMC exit code: " ++ str_int (returncode c))] 1 eq_refl),
      prepend_pair.
    split; [reflexivity|]. cbn [fst].
    rewrite existsb_app, startup_no_chat. reflexivity.
Qed.

(** C7.  When the environment file is missing, or the verifier is not at
    the configured path, the run ends with status 3; its last event prints
    the diagnostic of the failed check, and every event before it only
    prints progress text: no file is read, no child is started and the
    chat object is not reached. *)
Theorem C7_failed_health_check_exits_3 (args : Args) (lines : list string) :
  path_exists w ".env" = false \/ path_exists w (esbmc_path config) = false ->
  exists pre diagnostic,
    main w config repr_params args lines = ((pre ++ [Print diagnostic])%list, Exited 3)
    /\ forallb is_output pre = true
    /\ diagnostic
       = (if path_exists w ".env"
          then "Error: ESBMC could not be found in " ++ esbmc_path config
          else "Error: .env file is not found in project directory").
Proof.
  intros H. rewrite main_phases, !bind_print.
  destruct (path_exists w ".env") eqn:Henv.
  - destruct H as [H|Hbin]; [discriminate H|].
    rewrite (bind_returned _ _ _ _ (init_check_health_passes w _ Henv)).
    rewrite (bind_exited _ _ _ _ (check_health_fails w config Hbin)).
    rewrite !prepend_pair.
    exists ([Print "ESBMC-AI"; Print ""]
            ++ (say (args_verbose args) "Performing init health check..."
                ++ say (args_verbose args) "Environment file has been located")
            ++ say (verbose config) "Performing health check...")%list.
    exists ("Error: ESBMC could not be found in " ++ esbmc_path config).
    split; [|split; [|reflexivity]].
    + cbn [app]. now rewrite <- !app_assoc.
    + now rewrite !forallb_app, !say_output.
  - rewrite (bind_exited _ _ _ _ (init_check_health_fails w _ Henv)).
    rewrite !prepend_pair.
    exists ([Print "ESBMC-AI"; Print ""]
            ++ say (args_verbose args) "Performing init health check...")%list.
    exists "Error: .env file is not found in project directory".
    split; [|split; [|reflexivity]].
    + reflexivity.
    + now rewrite forallb_app, say_output.
Qed.

End MainClaims.

(** ** The interactive loop *)

Section LoopClaims.

Context {chat_module : ChatModule}.
Variable config : Config.

Lemma loop_starts_with_prompt (chat : ChatInterface) (lines : list string) :
  exists t, fst (loop config chat lines) = Prompt ">: " :: t.
Proof.
  destruct lines as [|line rest]; cbn [loop]; rewrite bind_emit; eexists; reflexivity.
Qed.

Lemma loop_exit (chat : ChatInterface) (rest : list string) :
  loop config chat ("/exit" :: rest) = ([Prompt ">: "; Print "exiting..."], Exited 0).
Proof. reflexivity. Qed.

Lemma loop_empty (chat : ChatInterface) (rest : list string) :
  loop config chat ("" :: rest) = prepend [Prompt ">: "] (loop config chat rest).
Proof. cbn [loop]. rewrite bind_emit. reflexivity. Qed.

Lemma loop_help (chat : ChatInterface) (rest : list string) :
  loop config chat ("/help" :: rest)
  = prepend (noop_events "/help") (loop config chat rest).
Proof.
  cbn [loop]. rewrite bind_emit. cbv beta.
  change ("/help" =? "/exit") with false. change ("/help" =? "/help") with true.
  cbv iota.
  rewrite (bind_returned print_help _
             [Print ""; Print "Commands:"; Print "/help: Print this help message.";
              Print "/exit: Exit the program."; Print ""] tt eq_refl).
  rewrite prepend_prepend. reflexivity.
Qed.

(** A line that is no command and not empty goes to the chat object as
    it was typed. *)
Lemma loop_send (chat : ChatInterface) (line : string) (rest : list string) :
  line <> "/exit" -> line <> "/help" -> line <> "" ->
  loop config chat (line :: rest)
  = prepend (send_events line)
      match send_message chat line with
      | inl (chat', response) =>
          prepend [AnimStop]
            (print_assistant_response config chat' response;; loop config chat' rest)
      | inr detail => ([], Raised (BackendError detail))
      end.
Proof.
  intros Hexit Hhelp Hempty. cbn [loop]. rewrite bind_emit. cbv beta.
  apply String.eqb_neq in Hexit, Hhelp, Hempty. rewrite Hexit, Hhelp, Hempty.
  rewrite bind_print, bind_emit. cbv beta.
  unfold call_send_message. rewrite !prepend_prepend.
  destruct (send_message chat line) as [[chat' response]|detail].
  - rewrite (bind_returned (emit (SendMessage line);; ret (chat', response)) _
               [SendMessage line] (chat', response) eq_refl).
    rewrite bind_emit, !prepend_prepend. reflexivity.
  - rewrite (bind_raised (emit (SendMessage line);; raise (BackendError detail)) _
               [SendMessage line] (BackendError detail) eq_refl).
    reflexivity.
Qed.

(** C8.  Lines that are empty or [/help], in any number and order, leave
    the chat object as it is and never call it: the loop shows the prompt
    for each of them, prints the command list for each [/help] and nothing
    for an empty line, and then goes on with the lines that follow and the
    chat object it had before. *)
Theorem C8_noop_lines_leave_session_unchanged
    (chat : ChatInterface) (noops rest : list string) :
  Forall (fun line => line = "" \/ line = "/help") noops ->
  loop config chat (noops ++ rest)
  = prepend (flat_map noop_events noops) (loop config chat rest)
  /\ forallb is_output (flat_map noop_events noops) = true
  /\ existsb touches_chat (flat_map noop_events noops) = false.
Proof.
  induction 1 as [|line noops Hline _ (IHrun & IHout & IHchat)].
  - cbn [app flat_map]. now rewrite prepend_nil.
  - cbn [app flat_map].
    rewrite forallb_app, existsb_app, IHout, IHchat.
    destruct Hline as [-> | ->].
    + rewrite loop_empty, IHrun, prepend_prepend. repeat split.
    + rewrite loop_help, IHrun, prepend_prepend. repeat split.
Qed.

(** C10.  A line is sent to the chat object, as it was typed, exactly
    when it is not the string [/exit], not the string [/help] and not
    empty: then the loop shows the prompt, prints an empty line, starts
    the indicator and calls [send_message] with the line.  The line
    [/exit] ends the run with status 0, and [/help] and the empty line go
    back to the prompt. *)
Theorem C10_commands_by_exact_equality
    (chat : ChatInterface) (line : string) (rest : list string) :
  ((exists r, loop config chat (line :: rest) = prepend (send_events line) r)
   <-> (line <> "/exit" /\ line <> "/help" /\ line <> ""))
  /\ (loop config chat (line :: rest)
      = ([Prompt ">: "; Print "exiting..."], Exited 0) <-> line = "/exit")
  /\ (line = "/help" \/ line = "" ->
      loop config chat (line :: rest)
      = prepend (noop_events line) (loop config chat rest)).
Proof.
  split; [split|split; [split|]].
  - intros (r & E) . repeat split; intros ->.
    + rewrite loop_exit in E. discriminate E.
    + rewrite loop_help in E. discriminate E.
    + rewrite loop_empty in E.
      destruct (loop_starts_with_prompt chat rest) as (t & Ht).
      unfold prepend in E. rewrite Ht in E. discriminate E.
  - intros (Hexit & Hhelp & Hempty). eexists. now apply loop_send.
  - intros E.
    destruct (String.eqb_spec line "/exit") as [->|Hexit]; [reflexivity|].
    destruct (String.eqb_spec line "/help") as [->|Hhelp].
    { rewrite loop_help in E. discriminate E. }
    destruct (String.eqb_spec line "") as [->|Hempty].
    { rewrite loop_empty in E.
      destruct (loop_starts_with_prompt chat rest) as (t & Ht).
      unfold prepend in E. rewrite Ht in E. discriminate E. }
    rewrite loop_send in E by assumption. discriminate E.
  - intros ->. apply loop_exit.
  - intros [-> | ->]; [apply loop_help | apply loop_empty].
Qed.

End LoopClaims.

(** C1 at three verifiers: one that succeeds, one that finds a violation
    and one that ends with code 2. *)
Lemma C1_witness :
  (let run := main (chat_module := demo_chat_module) (demo_world 0 "VERIFICATION SUCCESSFUL" "")
                (demo_config demo_chat_module "gpt" tt) no_repr (demo_args []) [] in
   run = ((startup_events (demo_config demo_chat_module "gpt" tt) no_repr (demo_args [])
           ++ [Print "Success!"; Print "b'VERIFICATION SUCCESSFUL'"])%list, Exited 0)
   /\ existsb touches_chat (fst run) = false)
  /\ (let run := main (chat_module := demo_chat_module) (demo_world 1 "VERIFICATION FAILED" "")
                   (demo_config demo_chat_module "gpt" tt) no_repr (demo_args []) ["/exit"] in
      In (SendMessage DEFAULT_PROMPT) (fst run))
  /\ (let run := main (chat_module := demo_chat_module) (demo_world 2 "" "")
                   (demo_config demo_chat_module "gpt" tt) no_repr (demo_args []) [] in
      run = ((startup_events (demo_config demo_chat_module "gpt" tt) no_repr (demo_args [])
              ++ [Print "ESBMC exit code: 2"])%list, Exited 1)
      /\ existsb touches_chat (fst run) = false).
Proof.
  split; [|split].
  - exact (C1_exit_code_classification (chat_module := demo_chat_module)
             (demo_world 0 "VERIFICATION SUCCESSFUL" "")
             (demo_config demo_chat_module "gpt" tt) no_repr (demo_args []) []
             "int main() { return 0; }"
             {| returncode := 0;
                stdout_data := bytes_of_string "VERIFICATION SUCCESSFUL";
                stderr_data := bytes_of_string "" |}
             eq_refl eq_refl eq_refl eq_refl).
  - exact (proj2 (proj2
             (C1_exit_code_classification (chat_module := demo_chat_module)
                (demo_world 1 "VERIFICATION FAILED" "")
                (demo_config demo_chat_module "gpt" tt) no_repr (demo_args []) ["/exit"]
                "int main() { return 0; }"
                {| returncode := 1;
                   stdout_data := bytes_of_string "VERIFICATION FAILED";
                   stderr_data := bytes_of_string "" |}
                eq_refl eq_refl eq_refl eq_refl))).
  - exact (C1_exit_code_classification (chat_module := demo_chat_module)
             (demo_world 2 "" "")
             (demo_config demo_chat_module "gpt" tt) no_repr (demo_args []) []
             "int main() { return 0; }"
             {| returncode := 2;
                stdout_data := bytes_of_string "";
                stderr_data := bytes_of_string "" |}
             eq_refl eq_refl eq_refl eq_refl).
Defined.

(** C7 on a machine without the environment file, and on one without the
    verifier. *)
Lemma C7_witness :
  (exists pre diagnostic,
     main (chat_module := demo_chat_module) no_env_world
       (demo_config demo_chat_module "gpt" tt) no_repr (demo_args []) []
     = ((pre ++ [Print diagnostic])%list, Exited 3)
     /\ forallb is_output pre = true
     /\ diagnostic = "Error: .env file is not found in project directory")
  /\ (exists pre diagnostic,
        main (chat_module := demo_chat_module) no_verifier_world
          (demo_config demo_chat_module "gpt" tt) no_repr (demo_args []) []
        = ((pre ++ [Print diagnostic])%list, Exited 3)
        /\ forallb is_output pre = true
        /\ diagnostic = "Error: ESBMC could not be found in ./esbmc").
Proof.
  split.
  - exact (C7_failed_health_check_exits_3 (chat_module := demo_chat_module) no_env_world
             (demo_config demo_chat_module "gpt" tt) no_repr (demo_args []) []
             (or_introl eq_refl)).
  - exact (C7_failed_health_check_exits_3 (chat_module := demo_chat_module) no_verifier_world
             (demo_config demo_chat_module "gpt" tt) no_repr (demo_args []) []
             (or_intror eq_refl)).
Defined.

(** C8 at an operator who presses return, asks for help twice and
    presses return again before leaving. *)
Lemma C8_witness :
  let chat := new_ChatInterface (ChatModule := demo_chat_module) demo_persona "gpt" tt in
  loop (chat_module := demo_chat_module) (demo_config demo_chat_module "gpt" tt) chat
    ([""; "/help"; "/help"; ""] ++ ["/exit"])
  = prepend (flat_map noop_events [""; "/help"; "/help"; ""])
      (loop (chat_module := demo_chat_module) (demo_config demo_chat_module "gpt" tt) chat
         ["/exit"])
  /\ forallb is_output (flat_map noop_events [""; "/help"; "/help"; ""]) = true
  /\ existsb touches_chat (flat_map noop_events [""; "/help"; "/help"; ""]) = false.
Proof.
  cbv zeta.
  apply (C8_noop_lines_leave_session_unchanged (chat_module := demo_chat_module)).
  repeat (apply Forall_cons; [first [left; reflexivity | right; reflexivity]|]).
  apply Forall_nil.
Defined.

(** C10 at lines that only resemble commands. *)
Lemma C10_witness :
  let chat := new_ChatInterface (ChatModule := demo_chat_module) demo_persona "gpt" tt in
  let config := demo_config demo_chat_module "gpt" tt in
  (exists r, loop (chat_module := demo_chat_module) config chat [" /exit"]
             = prepend (send_events " /exit") r)
  /\ (exists r, loop (chat_module := demo_chat_module) config chat ["/help "]
                = prepend (send_events "/help ") r)
  /\ (exists r, loop (chat_module := demo_chat_module) config chat ["/quit"]
                = prepend (send_events "/quit") r).
Proof.
  cbv zeta. repeat split;
    apply (C10_commands_by_exact_equality (chat_module := demo_chat_module));
    repeat split; discriminate.
Defined.

(** ** How runs end *)

Lemma exit_status_ok_bind {A B} (m : Run A) (k : A -> Run B) :
  exit_status_ok m -> (forall a, exit_status_ok (k a)) -> exit_status_ok (bind m k).
Proof.
  destruct m as [t [a|status|e]]; unfold exit_status_ok; cbn [fst snd bind];
    intros Hm Hk; try exact Hm.
  specialize (Hk a). now destruct (k a).
Qed.

Lemma never_returns_bind {A B} (m : Run A) (k : A -> Run B) :
  (forall a, never_returns (k a)) -> never_returns (bind m k).
Proof.
  destruct m as [t [a|status|e]]; unfold never_returns; cbn [fst snd bind];
    intros Hk; try exact I.
  specialize (Hk a). now destruct (k a).
Qed.

Lemma exit_status_ok_returned {A} (t : list Event) (a : A) :
  exit_status_ok (t, Returned a).
Proof. exact I. Qed.

Lemma exit_status_ok_raised {A} (t : list Event) (e : Exn) :
  exit_status_ok (A := A) (t, Raised e).
Proof. exact I. Qed.

Section EndFacts.

Context {chat_module : ChatModule}.
Variable w : World.
Variable config : Config.
Variable repr_params : list string -> string.

Lemma exit_status_ok_printv (m : string) : exit_status_ok (printv config m).
Proof. unfold printv. now destruct (verbose config). Qed.

Lemma exit_status_ok_init_check_health (v : bool) :
  exit_status_ok (init_check_health w v).
Proof.
  unfold init_check_health.
  destruct (path_exists w ".env"), v; cbn; auto.
Qed.

Lemma exit_status_ok_check_health : exit_status_ok (check_health w config).
Proof.
  unfold check_health, printv.
  destruct (path_exists w (esbmc_path config)), (verbose config); cbn; auto.
Qed.

Lemma exit_status_ok_get_src (path : string) : exit_status_ok (get_src w path).
Proof. unfold get_src. now destruct (file_text w path). Qed.

Lemma exit_status_ok_esbmc (path : string) (params : list string) :
  exit_status_ok (esbmc w config path params).
Proof.
  unfold esbmc, Popen. cbn [app]. now destruct (run_child w _).
Qed.

Lemma exit_status_ok_call_send_message (chat : ChatInterface) (text : string) :
  exit_status_ok (call_send_message chat text).
Proof.
  unfold call_send_message. now destruct (send_message chat text) as [[chat' r]|d].
Qed.

Lemma exit_status_ok_print_assistant_response (chat : ChatInterface) (response : Response) :
  exit_status_ok (print_assistant_response config chat response).
Proof.
  unfold print_assistant_response.
  now destruct (raw_responses config), (verbose config).
Qed.

Lemma exit_status_ok_build_system_messages (source output : string) :
  exit_status_ok (build_system_messages config source output).
Proof. unfold build_system_messages, printv. now destruct (verbose config). Qed.

Lemma exit_status_ok_verdict (exit_code : Z) (output : string) :
  exit_status_ok (verdict exit_code output).
Proof.
  unfold verdict. destruct (exit_code =? 0)%Z; [cbn; auto|].
  destruct (exit_code =? 1)%Z; cbn; auto.
Qed.

Create HintDb ends.
#[local] Hint Resolve exit_status_ok_returned exit_status_ok_raised
  exit_status_ok_printv exit_status_ok_init_check_health
  exit_status_ok_check_health exit_status_ok_get_src exit_status_ok_esbmc
  exit_status_ok_call_send_message exit_status_ok_print_assistant_response
  exit_status_ok_build_system_messages exit_status_ok_verdict : ends.

Ltac end_step :=
  apply exit_status_ok_bind;
  [ solve [eauto with ends | exact I]
  | let x := fresh "x" in intros x; split_result x ].

Lemma exit_status_ok_loop (lines : list string) :
  forall chat, exit_status_ok (loop config chat lines).
Proof.
  induction lines as [|user_message lines IH]; intros chat; [exact I|].
  cbn [loop]. end_step.
  destruct (user_message =? "/exit"); [cbn; auto|].
  destruct (user_message =? "/help"); [end_step; apply IH|].
  destruct (user_message =? ""); [apply IH|].
  do 5 end_step. apply IH.
Qed.

Lemma never_returns_loop (lines : list string) :
  forall chat, never_returns (loop config chat lines).
Proof.
  induction lines as [|user_message lines IH]; intros chat; [exact I|].
  cbn [loop]. apply never_returns_bind. intros _.
  destruct (user_message =? "/exit"); [exact I|].
  destruct (user_message =? "/help"); [apply never_returns_bind; intros _; apply IH|].
  destruct (user_message =? ""); [apply IH|].
  do 3 (apply never_returns_bind; intros ?). split_result a1.
  do 2 (apply never_returns_bind; intros ?). apply IH.
Qed.

Lemma exit_status_ok_conversation (source output : string) (lines : list string) :
  exit_status_ok (conversation config source output lines).
Proof.
  unfold conversation. do 4 end_step.
  apply exit_status_ok_bind.
  - destruct (negb (cfg_initial_prompt config =? "")); do 4 end_step; exact I.
  - intros [chat response]. end_step. apply exit_status_ok_loop.
Qed.

Lemma never_returns_conversation (source output : string) (lines : list string) :
  never_returns (conversation config source output lines).
Proof.
  unfold conversation.
  do 5 (apply never_returns_bind; intros ?). split_result a3.
  apply never_returns_bind; intros _. apply never_returns_loop.
Qed.

(** X1.  From the parsed command line on, and with the configuration
    loaded, the program never returns from [main]: every run ends by
    [exit] or by an uncaught exception, and a run that ends by [exit] has
    status 0, 1 or 3. *)
Theorem X1_main_ends_by_exit_or_exception (args : Args) (lines : list string) :
  match snd (main w config repr_params args lines) with
  | Returned _ => False
  | Exited status => status = 0%Z \/ status = 1%Z \/ status = 3%Z
  | Raised _ => True
  end.
Proof.
  assert (Hok : exit_status_ok (main w config repr_params args lines)).
  { rewrite main_phases. do 11 end_step. apply exit_status_ok_conversation. }
  assert (Hnever : never_returns (main w config repr_params args lines)).
  { rewrite main_phases.
    do 9 (apply never_returns_bind; intros ?). split_result a7.
    do 2 (apply never_returns_bind; intros ?). apply never_returns_conversation. }
  unfold exit_status_ok in Hok. unfold never_returns in Hnever.
  destruct (snd (main w config repr_params args lines)); auto.
Qed.

End EndFacts.

(** ** What the loop reads and sends *)

Lemma sent_app (t t' : list Event) : sent (t ++ t') = (sent t ++ sent t')%list.
Proof.
  induction t as [|e t IH]; [reflexivity|].
  destruct e; cbn [app sent]; now rewrite ?IH.
Qed.

Lemma sent_prints (t : list Event) : forallb is_print t = true -> sent t = [].
Proof.
  induction t as [|e t IH]; [reflexivity|].
  cbn [forallb]. intros H. apply andb_prop in H. destruct H as [He Ht].
  destruct e; try discriminate He. cbn [sent]. auto.
Qed.

Lemma last_app_occupied {X} (l l' : list X) (d : X) :
  l' <> [] -> last (l ++ l') d = last l' d.
Proof.
  intros H. induction l as [|x l IH]; [reflexivity|].
  cbn [app]. destruct (l ++ l')%list eqn:E.
  - apply app_eq_nil in E. destruct E as [_ E]. contradiction.
  - cbn [last]. exact IH.
Qed.

Section LoopFacts.

Context {chat_module : ChatModule}.
Variable config : Config.

Lemma print_assistant_response_prints (chat : ChatInterface) (response : Response) :
  exists t,
    print_assistant_response config chat response = (t, Returned tt)
    /\ forallb is_print t = true.
Proof.
  unfold print_assistant_response.
  destruct (raw_responses config), (verbose config); eexists; split; reflexivity.
Qed.

Lemma loop_send_returns (chat chat' : ChatInterface) (line : string)
    (response : Response) (rest : list string) :
  line <> "/exit" -> line <> "/help" -> line <> "" ->
  send_message chat line = inl (chat', response) ->
  exists t,
    loop config chat (line :: rest)
    = prepend (send_events line ++ AnimStop :: t) (loop config chat' rest)
    /\ forallb is_print t = true.
Proof.
  intros Hexit Hhelp Hempty Hsend.
  rewrite loop_send by assumption. rewrite Hsend.
  destruct (print_assistant_response_prints chat' response) as (t & Hrun & Ht).
  exists t. split; [|exact Ht].
  rewrite (bind_returned _ _ _ _ Hrun), !prepend_prepend.
  reflexivity.
Qed.

Lemma loop_send_raises (chat : ChatInterface) (line detail : string) (rest : list string) :
  line <> "/exit" -> line <> "/help" -> line <> "" ->
  send_message chat line = inr detail ->
  loop config chat (line :: rest) = (send_events line, Raised (BackendError detail)).
Proof.
  intros Hexit Hhelp Hempty Hsend.
  rewrite loop_send by assumption. rewrite Hsend.
  unfold prepend. cbn [fst snd]. now rewrite app_nil_r.
Qed.

Lemma loop_trace_occupied (chat : ChatInterface) (lines : list string) :
  fst (loop config chat lines) <> [].
Proof.
  destruct (loop_starts_with_prompt config chat lines) as (t & ->). discriminate.
Qed.

(** X2.  The loop ends in one of three ways.  It exits with status 0,
    and then [/exit] is among the lines and the farewell is the last thing
    printed; or the input ends, which raises [EOFError], and then [/exit]
    is not among the lines; or a chat call raises. *)
Theorem X2_loop_endings (lines : list string) :
  forall chat,
    match snd (loop config chat lines) with
    | Returned _ => False
    | Exited status =>
        status = 0%Z /\ In "/exit" lines
        /\ last (fst (loop config chat lines)) AnimStop = Print "exiting..."
    | Raised e =>
        (e = EOFError /\ ~ In "/exit" lines) \/ exists detail, e = BackendError detail
    end.
Proof.
  induction lines as [|line rest IH]; intros chat.
  - cbn. left. split; [reflexivity | tauto].
  - destruct (String.eqb_spec line "/exit") as [->|Hexit].
    { rewrite loop_exit. cbn. auto. }
    destruct (String.eqb_spec line "/help") as [->|Hhelp].
    { rewrite loop_help. specialize (IH chat). unfold prepend. cbn [fst snd].
      rewrite last_app_occupied by apply loop_trace_occupied.
      destruct (snd (loop config chat rest)) as [a|status|e]; [exact IH| |].
      - destruct IH as (Hs & Hin & Hlast). repeat split; [exact Hs | now right | exact Hlast].
      - destruct IH as [[He Hin]|Hd]; [left|now right].
        split; [exact He|]. intros [H|H]; [discriminate H | contradiction]. }
    destruct (String.eqb_spec line "") as [->|Hempty].
    { rewrite loop_empty. specialize (IH chat). unfold prepend. cbn [fst snd].
      rewrite last_app_occupied by apply loop_trace_occupied.
      destruct (snd (loop config chat rest)) as [a|status|e]; [exact IH| |].
      - destruct IH as (Hs & Hin & Hlast). repeat split; [exact Hs | now right | exact Hlast].
      - destruct IH as [[He Hin]|Hd]; [left|now right].
        split; [exact He|]. intros [H|H]; [discriminate H | contradiction]. }
    destruct (send_message chat line) as [[chat' response]|detail] eqn:Hsend.
    + destruct (loop_send_returns chat chat' line response rest Hexit Hhelp Hempty Hsend)
        as (t & -> & _).
      specialize (IH chat'). unfold prepend. cbn [fst snd].
      rewrite last_app_occupied by apply loop_trace_occupied.
      destruct (snd (loop config chat' rest)) as [a|status|e]; [exact IH| |].
      * destruct IH as (Hs & Hin & Hlast). repeat split; [exact Hs | now right | exact Hlast].
      * destruct IH as [[He Hin]|Hd]; [left|now right].
        split; [exact He|]. intros [H|H]; [now apply Hexit | contradiction].
    + rewrite (loop_send_raises chat line detail rest Hexit Hhelp Hempty Hsend).
      cbn. right. now exists detail.
Qed.

(** X3.  Nothing after the first [/exit] matters: the loop runs the same
    whatever lines follow it. *)
Theorem X3_lines_after_exit_are_not_read (before after : list string) :
  forall chat,
    loop config chat (before ++ "/exit" :: after)
    = loop config chat (before ++ ["/exit"]).
Proof.
  induction before as [|line before IH]; intros chat; cbn [app].
  - now rewrite !loop_exit.
  - destruct (String.eqb_spec line "/exit") as [->|Hexit].
    { now rewrite !loop_exit. }
    destruct (String.eqb_spec line "/help") as [->|Hhelp].
    { now rewrite !loop_help, IH. }
    destruct (String.eqb_spec line "") as [->|Hempty].
    { now rewrite !loop_empty, IH. }
    rewrite !loop_send by assumption.
    destruct (send_message chat line) as [[chat' response]|detail]; [|reflexivity].
    now rewrite IH.
Qed.

(** The lines the loop sends, against the lines that were typed. *)
Lemma loop_sends_typed_messages (lines : list string) :
  forall chat,
    exists unsent,
      typed_messages lines = (sent (fst (loop config chat lines)) ++ unsent)%list
      /\ match snd (loop config chat lines) with
         | Raised (BackendError _) => True
         | _ => unsent = []
         end.
Proof.
  induction lines as [|line rest IH]; intros chat.
  - exists []. split; reflexivity.
  - destruct (String.eqb_spec line "/exit") as [->|Hexit].
    { rewrite loop_exit. exists []. split; reflexivity. }
    destruct (String.eqb_spec line "/help") as [->|Hhelp].
    { rewrite loop_help. destruct (IH chat) as (unsent & Hsent & Hend).
      exists unsent. unfold prepend. cbn [fst snd]. rewrite sent_app. split; assumption. }
    destruct (String.eqb_spec line "") as [->|Hempty].
    { rewrite loop_empty. destruct (IH chat) as (unsent & Hsent & Hend).
      exists unsent. unfold prepend. cbn [fst snd]. rewrite sent_app. split; assumption. }
    assert (Htyped : typed_messages (line :: rest) = line :: typed_messages rest).
    { cbn [typed_messages].
      apply String.eqb_neq in Hexit, Hhelp, Hempty. now rewrite Hexit, Hhelp, Hempty. }
    destruct (send_message chat line) as [[chat' response]|detail] eqn:Hsend.
    + destruct (loop_send_returns chat chat' line response rest Hexit Hhelp Hempty Hsend)
        as (t & -> & Ht).
      destruct (IH chat') as (unsent & Hsent & Hend).
      exists unsent. unfold prepend. cbn [fst snd].
      rewrite !sent_app. cbn [send_events sent app]. rewrite (sent_prints t Ht).
      cbn [app]. rewrite Htyped, Hsent. split; [reflexivity | exact Hend].
    + rewrite (loop_send_raises chat line detail rest Hexit Hhelp Hempty Hsend).
      exists (typed_messages rest). cbn [fst snd send_events sent app].
      split; [exact Htyped | exact I].
Qed.

(** X4.  The loop hands the typed lines to the chat object in the order
    they were typed, each once and unchanged, leaving out empty lines,
    [/help] and everything from the first [/exit] on.  It stops sending
    only when a chat call raises: in every other run all these lines are
    sent. *)
Theorem X4_loop_sends_typed_messages_in_order (lines : list string) :
  forall chat,
    exists unsent,
      typed_messages lines = (sent (fst (loop config chat lines)) ++ unsent)%list
      /\ match snd (loop config chat lines) with
         | Raised (BackendError _) => True
         | _ => unsent = []
         end.
Proof. exact (loop_sends_typed_messages lines). Qed.

End LoopFacts.

(** ** What the program starts, and when *)

Lemma all_events_bind {A B} (p : Event -> bool) (m : Run A) (k : A -> Run B) :
  all_events p m -> (forall a, all_events p (k a)) -> all_events p (bind m k).
Proof.
  destruct m as [t [a|status|e]]; unfold all_events; cbn [fst snd bind];
    intros Hm Hk; try exact Hm.
  specialize (Hk a). destruct (k a) as [t' o]. cbn [fst] in *.
  now rewrite forallb_app, Hm, Hk.
Qed.

Lemma spawned_app (t t' : list Event) :
  spawned (t ++ t') = (spawned t ++ spawned t')%list.
Proof.
  induction t as [|e t IH]; [reflexivity|].
  destruct e; cbn [app spawned]; now rewrite ?IH.
Qed.

Lemma spawned_session (t : list Event) :
  forallb is_session_event t = true -> spawned t = [].
Proof.
  induction t as [|e t IH]; [reflexivity|].
  cbn [forallb]. intros H. apply andb_prop in H. destruct H as [He Ht].
  destruct e; try discriminate He; cbn [spawned]; auto.
Qed.

Lemma spawned_say (flag : bool) (m : string) : spawned (say flag m) = [].
Proof. now destruct flag. Qed.

Lemma touches_chat_say (flag : bool) (m : string) :
  existsb touches_chat (say flag m) = false.
Proof. now destruct flag. Qed.

Section StartFacts.

Context {chat_module : ChatModule}.
Variable w : World.
Variable config : Config.
Variable repr_params : list string -> string.

Lemma session_printv (m : string) : all_events is_session_event (printv config m).
Proof. unfold printv. now destruct (verbose config). Qed.

Lemma session_call_send_message (chat : ChatInterface) (text : string) :
  all_events is_session_event (call_send_message chat text).
Proof.
  unfold call_send_message. now destruct (send_message chat text) as [[chat' r]|d].
Qed.

Lemma session_print_assistant_response (chat : ChatInterface) (response : Response) :
  all_events is_session_event (print_assistant_response config chat response).
Proof.
  unfold print_assistant_response.
  now destruct (raw_responses config), (verbose config).
Qed.

Lemma session_build_system_messages (source output : string) :
  all_events is_session_event (build_system_messages config source output).
Proof. unfold build_system_messages, printv. now destruct (verbose config). Qed.

Lemma session_verdict (exit_code : Z) (output : string) :
  all_events is_session_event (verdict exit_code output).
Proof.
  unfold verdict. destruct (exit_code =? 0)%Z; [reflexivity|].
  now destruct (exit_code =? 1)%Z.
Qed.

Lemma session_emit (e : Event) :
  is_session_event e = true -> all_events is_session_event (emit e).
Proof. intros H. unfold all_events. cbn. now rewrite H. Qed.

Create HintDb session.
#[local] Hint Resolve session_printv session_call_send_message
  session_print_assistant_response session_build_system_messages
  session_verdict : session.

Ltac session_step :=
  apply all_events_bind;
  [ solve [eauto with session | reflexivity]
  | let x := fresh "x" in intros x; split_result x ].

Lemma session_loop (lines : list string) :
  forall chat, all_events is_session_event (loop config chat lines).
Proof.
  induction lines as [|user_message lines IH]; intros chat; [reflexivity|].
  cbn [loop]. session_step.
  destruct (user_message =? "/exit"); [reflexivity|].
  destruct (user_message =? "/help"); [session_step; apply IH|].
  destruct (user_message =? ""); [apply IH|].
  do 5 session_step. apply IH.
Qed.

Lemma session_conversation (source output : string) (lines : list string) :
  all_events is_session_event (conversation config source output lines).
Proof.
  unfold conversation. do 4 session_step.
  apply all_events_bind.
  - destruct (negb (cfg_initial_prompt config =? "")); do 4 session_step; reflexivity.
  - intros [chat response]. session_step. apply session_loop.
Qed.

(** [main] when the environment file is missing. *)
Lemma main_without_env (args : Args) (lines : list string) :
  path_exists w ".env" = false ->
  main w config repr_params args lines
  = (([Print "ESBMC-AI"; Print ""]
      ++ say (args_verbose args) "Performing init health check..."
      ++ [Print "Error: .env file is not found in project directory"])%list,
     Exited 3).
Proof.
  intros Henv. rewrite main_phases, !bind_print.
  rewrite (bind_exited _ _ _ _ (init_check_health_fails w _ Henv)).
  now rewrite !prepend_pair.
Qed.

(** [main] when the verifier is not at its path. *)
Lemma main_without_verifier (args : Args) (lines : list string) :
  path_exists w ".env" = true ->
  path_exists w (esbmc_path config) = false ->
  main w config repr_params args lines
  = (([Print "ESBMC-AI"; Print ""]
      ++ say (args_verbose args) "Performing init health check..."
      ++ say (args_verbose args) "Environment file has been located"
      ++ say (verbose config) "Performing health check..."
      ++ [Print ("Error: ESBMC could not be found in " ++ esbmc_path config)])%list,
     Exited 3).
Proof.
  intros Henv Hbin. rewrite main_phases, !bind_print.
  rewrite (bind_returned _ _ _ _ (init_check_health_passes w _ Henv)).
  rewrite (bind_exited _ _ _ _ (check_health_fails w config Hbin)).
  rewrite !prepend_pair. cbn [app]. now rewrite <- !app_assoc.
Qed.

(** [main] when the source file cannot be read. *)
Lemma main_unreadable (args : Args) (lines : list string) :
  path_exists w ".env" = true ->
  path_exists w (esbmc_path config) = true ->
  file_text w (filename args) = None ->
  main w config repr_params args lines
  = ((health_events config args
      ++ say (verbose config) "Reading source code..."
      ++ say (verbose config) ("Running ESBMC with " ++ repr_params (esbmc_params config))
      ++ [ReadFile (filename args)])%list,
     Raised FileError).
Proof.
  intros Henv Hbin Hsrc. rewrite main_phases, !bind_print.
  rewrite (bind_returned _ _ _ _ (init_check_health_passes w _ Henv)).
  rewrite (bind_returned _ _ _ _ (check_health_passes w config Hbin)).
  rewrite !bind_printv.
  rewrite (bind_raised _ _ _ _ (get_src_fails w _ Hsrc)).
  rewrite !prepend_pair. unfold health_events. cbn [app]. now rewrite <- !app_assoc.
Qed.

(** [main] when the child cannot be started. *)
Lemma main_unstartable (args : Args) (lines : list string) (source : string) :
  path_exists w ".env" = true ->
  path_exists w (esbmc_path config) = true ->
  file_text w (filename args) = Some source ->
  run_child w (verifier_cmd config args) = None ->
  main w config repr_params args lines
  = ((health_events config args
      ++ say (verbose config) "Reading source code..."
      ++ say (verbose config) ("Running ESBMC with " ++ repr_params (esbmc_params config))
      ++ [ReadFile (filename args);
          AnimStart "ESBMC is processing... Please Wait";
          Spawn (verifier_cmd config args)])%list,
     Raised SpawnError).
Proof.
  intros Henv Hbin Hsrc Hrun. rewrite main_phases, !bind_print.
  rewrite (bind_returned _ _ _ _ (init_check_health_passes w _ Henv)).
  rewrite (bind_returned _ _ _ _ (check_health_passes w config Hbin)).
  rewrite !bind_printv.
  rewrite (bind_returned _ _ _ _ (get_src_reads w _ _ Hsrc)).
  rewrite bind_emit.
  rewrite (bind_raised _ _ _ _ (esbmc_fails w config _ _ Hrun)).
  rewrite !prepend_pair. unfold health_events. cbn [app]. now rewrite <- !app_assoc.
Qed.

Lemma spawned_health_events (args : Args) : spawned (health_events config args) = [].
Proof.
  unfold health_events. cbn [app spawned]. now rewrite !spawned_app, !spawned_say.
Qed.

Lemma spawned_startup_events (args : Args) :
  spawned (startup_events config repr_params args) = [verifier_cmd config args].
Proof.
  unfold startup_events.
  now rewrite !spawned_app, spawned_health_events, !spawned_say.
Qed.

(** The commands [main] hands to [Popen]. *)
Lemma main_spawned (args : Args) (lines : list string) :
  spawned (fst (main w config repr_params args lines))
  = if (path_exists w ".env" && path_exists w (esbmc_path config)
        && is_some (file_text w (filename args)))%bool
    then [(esbmc_path config :: esbmc_params config ++ [filename args])%list]
    else [].
Proof.
  destruct (path_exists w ".env") eqn:Henv; cbn [andb].
  2:{ rewrite (main_without_env args lines Henv). cbn [fst app spawned].
      now rewrite spawned_app, spawned_say. }
  destruct (path_exists w (esbmc_path config)) eqn:Hbin; cbn [andb].
  2:{ rewrite (main_without_verifier args lines Henv Hbin). cbn [fst app spawned].
      now rewrite !spawned_app, !spawned_say. }
  destruct (file_text w (filename args)) as [source|] eqn:Hsrc; cbn [is_some].
  2:{ rewrite (main_unreadable args lines Henv Hbin Hsrc). cbn [fst].
      now rewrite !spawned_app, spawned_health_events, !spawned_say. }
  destruct (run_child w (verifier_cmd config args)) as [c|] eqn:Hrun.
  - rewrite (main_startup w config repr_params args lines source c Henv Hbin Hsrc Hrun).
    unfold prepend. cbn [fst]. rewrite spawned_app, spawned_startup_events.
    rewrite spawned_session; [reflexivity|].
    apply all_events_bind; [apply session_verdict | intros _; apply session_conversation].
  - rewrite (main_unstartable args lines source Henv Hbin Hsrc Hrun). cbn [fst].
    now rewrite !spawned_app, spawned_health_events, !spawned_say.
Qed.

(** X5.  [main] calls [Popen] exactly when both health checks pass and
    the source file can be read, and then once, whether or not the child
    starts.  The command of that call begins with the configured verifier
    path and ends with the file name.  The chat phase and the loop never
    call [Popen]. *)
Theorem X5_one_verifier_call_after_checks (args : Args) (lines : list string) :
  List.length (spawned (fst (main w config repr_params args lines)))
  = (if (path_exists w ".env" && path_exists w (esbmc_path config)
         && is_some (file_text w (filename args)))%bool
     then 1 else 0)
  /\ forall cmd,
       In cmd (spawned (fst (main w config repr_params args lines))) ->
       hd_error cmd = Some (esbmc_path config) /\ last cmd "" = filename args.
Proof.
  rewrite main_spawned.
  destruct (path_exists w ".env" && path_exists w (esbmc_path config)
            && is_some (file_text w (filename args)))%bool.
  - split; [reflexivity|]. intros cmd [<-|[]]. split; [reflexivity|].
    rewrite app_comm_cons. apply last_last.
  - split; [reflexivity|]. intros cmd [].
Qed.

(** X6.  When the source file cannot be read, the run ends with the
    exception of the read: nothing is printed about it, the indicator is
    never started and no child is started. *)
Theorem X6_unreadable_source_ends_the_run (args : Args) (lines : list string) :
  path_exists w ".env" = true ->
  path_exists w (esbmc_path config) = true ->
  file_text w (filename args) = None ->
  exists pre,
    main w config repr_params args lines
    = ((pre ++ [ReadFile (filename args)])%list, Raised FileError)
    /\ forallb is_print pre = true.
Proof.
  intros Henv Hbin Hsrc. rewrite (main_unreadable args lines Henv Hbin Hsrc).
  exists (health_events config args
          ++ say (verbose config) "Reading source code..."
          ++ say (verbose config)
               ("Running ESBMC with " ++ repr_params (esbmc_params config)))%list.
  split; [now rewrite <- !app_assoc|].
  unfold health_events, say.
  now destruct (args_verbose args), (verbose config).
Qed.

(** X7.  When the child cannot be started, the run ends with the
    exception of the start right after the indicator was started: the
    last three events are the read of the source, the start of the
    indicator and the failed start, and everything before is printing. *)
Theorem X7_unstartable_verifier_ends_the_run
    (args : Args) (lines : list string) (source : string) :
  path_exists w ".env" = true ->
  path_exists w (esbmc_path config) = true ->
  file_text w (filename args) = Some source ->
  run_child w (esbmc_path config :: esbmc_params config ++ [filename args])%list = None ->
  exists pre,
    main w config repr_params args lines
    = ((pre ++ [ReadFile (filename args);
                AnimStart "ESBMC is processing... Please Wait";
                Spawn (esbmc_path config :: esbmc_params config ++ [filename args])%list])%list,
       Raised SpawnError)
    /\ forallb is_print pre = true.
Proof.
  intros Henv Hbin Hsrc Hrun.
  rewrite (main_unstartable args lines source Henv Hbin Hsrc Hrun).
  exists (health_events config args
          ++ say (verbose config) "Reading source code..."
          ++ say (verbose config)
               ("Running ESBMC with " ++ repr_params (esbmc_params config)))%list.
  split; [now rewrite <- !app_assoc|].
  unfold health_events, say.
  now destruct (args_verbose args), (verbose config).
Qed.

Lemma touches_chat_health_events (args : Args) :
  existsb touches_chat (health_events config args) = false.
Proof.
  unfold health_events, say.
  now destruct (args_verbose args), (verbose config).
Qed.

(** X8.  The chat object is built and called exactly in the runs where
    both health checks pass, the source file is read, the verifier starts
    and its exit code is 1. *)
Theorem X8_chat_reached_only_after_violation (args : Args) (lines : list string) :
  existsb touches_chat (fst (main w config repr_params args lines))
  = (path_exists w ".env" && path_exists w (esbmc_path config)
     && is_some (file_text w (filename args))
     && match run_child w (esbmc_path config :: esbmc_params config ++ [filename args])%list with
        | Some c => (returncode c =? 1)%Z
        | None => false
        end)%bool.
Proof.
  destruct (path_exists w ".env") eqn:Henv; cbn [andb].
  2:{ rewrite (main_without_env args lines Henv). cbn [fst app existsb touches_chat orb].
      now rewrite existsb_app, touches_chat_say. }
  destruct (path_exists w (esbmc_path config)) eqn:Hbin; cbn [andb].
  2:{ rewrite (main_without_verifier args lines Henv Hbin).
      cbn [fst app existsb touches_chat orb].
      now rewrite !existsb_app, !touches_chat_say. }
  destruct (file_text w (filename args)) as [source|] eqn:Hsrc; cbn [is_some andb].
  2:{ rewrite (main_unreadable args lines Henv Hbin Hsrc). cbn [fst].
      now rewrite !existsb_app, touches_chat_health_events, !touches_chat_say. }
  fold (verifier_cmd config args).
  destruct (run_child w (verifier_cmd config args)) as [c|] eqn:Hrun.
  - rewrite (main_startup w config repr_params args lines source c Henv Hbin Hsrc Hrun).
    unfold prepend. cbn [fst]. rewrite existsb_app, startup_no_chat. cbn [orb].
    unfold verdict.
    destruct (returncode c =? 0)%Z eqn:H0.
    + apply Z.eqb_eq in H0. rewrite H0. reflexivity.
    + destruct (returncode c =? 1)%Z; cbn [negb].
      * rewrite (bind_returned (ret tt) _ [] tt eq_refl), prepend_nil.
        apply existsb_exists. exists (SendMessage (first_prompt config)).
        split; [|reflexivity].
        apply (conversation_reaches_chat config repr_params source
                 (unescape_newlines (bytes_repr (stdout_data c))) lines).
      * reflexivity.
  - rewrite (main_unstartable args lines source Henv Hbin Hsrc Hrun). cbn [fst].
    now rewrite !existsb_app, touches_chat_health_events, !touches_chat_say.
Qed.

End StartFacts.

(** ** The first prompt *)

Lemma sent_say (flag : bool) (m : string) : sent (say flag m) = [].
Proof. now destruct flag. Qed.

Section SessionFacts.

Context {chat_module : ChatModule}.
Variable w : World.
Variable config : Config.
Variable repr_params : list string -> string.

Lemma sent_startup_events (args : Args) :
  sent (startup_events config repr_params args) = [].
Proof.
  unfold startup_events, health_events, say.
  now destruct (args_verbose args), (verbose config).
Qed.

Lemma conversation_sends (source output : string) (lines : list string) :
  exists rest unsent,
    sent (fst (conversation config source output lines)) = first_prompt config :: rest
    /\ typed_messages lines = (rest ++ unsent)%list
    /\ match snd (conversation config source output lines) with
       | Raised (BackendError _) => True
       | _ => unsent = []
       end.
Proof.
  unfold conversation.
  rewrite bind_printv.
  rewrite (bind_returned _ _ _ _ (build_system_messages_run config source output)).
  rewrite bind_emit. cbv zeta. rewrite bind_printv.
  set (chat := new_ChatInterface _ _ _).
  rewrite !prepend_prepend.
  set (pre := (_ ++ _)%list).
  assert (Hpre : sent pre = []).
  { subst pre. rewrite !sent_app, !sent_say. reflexivity. }
  assert (Hstep : forall note text,
    exists rest unsent,
      sent (fst (prepend pre
        ('(chat0, response) <-
           (printv config note;;
            emit (AnimStart "Model is parsing ESBMC output... Please Wait");;
            r <- call_send_message chat text;; emit AnimStop;; ret r);;
         print_assistant_response config chat0 response;; loop config chat0 lines)))
      = text :: rest
      /\ typed_messages lines = (rest ++ unsent)%list
      /\ match snd (prepend pre
           ('(chat0, response) <-
              (printv config note;;
               emit (AnimStart "Model is parsing ESBMC output... Please Wait");;
               r <- call_send_message chat text;; emit AnimStop;; ret r);;
            print_assistant_response config chat0 response;; loop config chat0 lines)) with
         | Raised (BackendError _) => True
         | _ => unsent = []
         end).
  { intros note text. rewrite first_exchange.
    destruct (send_message chat text) as [[chat' response]|detail].
    - rewrite (bind_returned _ _ _ _ eq_refl).
      destruct (print_assistant_response_prints config chat' response) as (t & Hrun & Ht).
      rewrite (bind_returned _ _ _ _ Hrun), !prepend_prepend.
      destruct (loop_sends_typed_messages config lines chat') as (unsent & Hsent & Hend).
      exists (sent (fst (loop config chat' lines))), unsent.
      unfold prepend. cbn [fst snd].
      rewrite !sent_app, Hpre, sent_say, (sent_prints t Ht). cbn [sent app].
      repeat split; assumption.
    - rewrite (bind_raised _ _ _ _ eq_refl).
      exists [], (typed_messages lines).
      unfold prepend. cbn [fst snd].
      rewrite !sent_app, Hpre, sent_say. cbn [sent app]. repeat split. }
  unfold first_prompt.
  destruct (negb (cfg_initial_prompt config =? "")); apply Hstep.
Qed.

(** X9.  In a run that reaches the chat phase, the first text sent to the
    chat object is the configured initial prompt, or the default prompt
    when none is configured; the typed lines follow in the order they
    were typed, and all of them are sent unless a chat call raises. *)
Theorem X9_first_prompt_then_typed_messages
    (args : Args) (lines : list string) (source : string) (c : Child) :
  path_exists w ".env" = true ->
  path_exists w (esbmc_path config) = true ->
  file_text w (filename args) = Some source ->
  run_child w (esbmc_path config :: esbmc_params config ++ [filename args])%list = Some c ->
  returncode c = 1%Z ->
  exists rest unsent,
    sent (fst (main w config repr_params args lines))
    = (if negb (cfg_initial_prompt config =? "")
       then cfg_initial_prompt config else DEFAULT_PROMPT) :: rest
    /\ typed_messages lines = (rest ++ unsent)%list
    /\ match snd (main w config repr_params args lines) with
       | Raised (BackendError _) => True
       | _ => unsent = []
       end.
Proof.
  intros Henv Hbin Hsrc Hrun Hcode.
  rewrite (main_startup w config repr_params args lines source c Henv Hbin Hsrc Hrun).
  unfold verdict. rewrite Hcode.
  change (1 =? 0)%Z with false. change (1 =? 1)%Z with true. cbn [negb].
  rewrite (bind_returned (ret tt) _ [] tt eq_refl), prepend_nil.
  destruct (conversation_sends source (unescape_newlines (bytes_repr (stdout_data c))) lines)
    as (rest & unsent & Hsent & Htyped & Hend).
  exists rest, unsent. unfold prepend. cbn [fst snd].
  rewrite sent_app, sent_startup_events. cbn [app].
  repeat split; assumption.
Qed.

End SessionFacts.

(** ** The output flags *)

Lemma actions_app (t t' : list Event) :
  actions (t ++ t') = (actions t ++ actions t')%list.
Proof. apply filter_app. Qed.

Lemma same_actions_bind {A B} (m m' : Run A) (k k' : A -> Run B) :
  same_actions m m' ->
  (forall a, same_actions (k a) (k' a)) ->
  same_actions (bind m k) (bind m' k').
Proof.
  destruct m as [t o], m' as [t' o']. unfold same_actions. cbn [fst snd].
  intros [Ht <-] Hk. destruct o as [a|status|e]; cbn [bind fst snd]; auto.
  specialize (Hk a). destruct (k a) as [u p], (k' a) as [u' p'].
  cbn [fst snd] in *. destruct Hk as [Hu <-].
  now rewrite !actions_app, Ht, Hu.
Qed.

Lemma same_actions_refl {A} (r : Run A) : same_actions r r.
Proof. now split. Qed.

Lemma same_actions_print (text text' : string) :
  same_actions (print text) (print text').
Proof. now split. Qed.

Section FlagFacts.

Context {chat_module : ChatModule}.
Variable w : World.
Variable config : Config.
Variables (v r : bool).

Lemma same_actions_printv (m m' : string) :
  same_actions (printv (with_flags config v r) m) (printv config m').
Proof. unfold printv. cbn [with_flags verbose]. now destruct v, (verbose config). Qed.

Lemma same_actions_init_check_health (va va' : bool) :
  same_actions (init_check_health w va) (init_check_health w va').
Proof.
  unfold init_check_health. now destruct (path_exists w ".env"), va, va'.
Qed.

Lemma same_actions_check_health :
  same_actions (check_health w (with_flags config v r)) (check_health w config).
Proof.
  unfold check_health, printv. cbn [with_flags verbose esbmc_path].
  now destruct (path_exists w (esbmc_path config)), v, (verbose config).
Qed.

Lemma same_actions_esbmc (path : string) (params : list string) :
  same_actions (esbmc w (with_flags config v r) path params) (esbmc w config path params).
Proof. apply same_actions_refl. Qed.

Lemma same_actions_build_system_messages (source output : string) :
  same_actions (build_system_messages (with_flags config v r) source output)
               (build_system_messages config source output).
Proof.
  unfold build_system_messages, printv. cbn [with_flags verbose cfg_sys_msg].
  now destruct v, (verbose config).
Qed.

Lemma same_actions_print_assistant_response (chat : ChatInterface) (response : Response) :
  same_actions (print_assistant_response (with_flags config v r) chat response)
               (print_assistant_response config chat response).
Proof.
  unfold print_assistant_response. cbn [with_flags verbose raw_responses].
  now destruct r, v, (raw_responses config), (verbose config).
Qed.

Lemma same_actions_verdict (exit_code : Z) (output : string) :
  same_actions (verdict exit_code output) (verdict exit_code output).
Proof. apply same_actions_refl. Qed.

Create HintDb flags.
#[local] Hint Resolve same_actions_refl same_actions_print same_actions_printv
  same_actions_init_check_health same_actions_check_health same_actions_esbmc
  same_actions_build_system_messages same_actions_print_assistant_response
  same_actions_verdict : flags.

Ltac flag_step :=
  apply same_actions_bind;
  [ solve [eauto with flags]
  | let x := fresh "x" in intros x; split_result x ].

Lemma same_actions_loop (lines : list string) :
  forall chat,
    same_actions (loop (with_flags config v r) chat lines) (loop config chat lines).
Proof.
  induction lines as [|user_message lines IH]; intros chat; [apply same_actions_refl|].
  cbn [loop]. flag_step.
  destruct (user_message =? "/exit"); [apply same_actions_refl|].
  destruct (user_message =? "/help"); [flag_step; apply IH|].
  destruct (user_message =? ""); [apply IH|].
  do 5 flag_step. apply IH.
Qed.

Lemma same_actions_conversation (source output : string) (lines : list string) :
  same_actions (conversation (with_flags config v r) source output lines)
               (conversation config source output lines).
Proof.
  unfold conversation.
  cbn [with_flags cfg_initial_prompt ai_model chat_temperature].
  do 4 flag_step.
  apply same_actions_bind.
  - destruct (negb (cfg_initial_prompt config =? "")); do 4 flag_step;
      apply same_actions_refl.
  - intros [chat response]. flag_step. apply same_actions_loop.
Qed.

(** X10.  The verbose and raw-output flags, and the way the parameter
    list is shown, change only what is printed: with other flags the run
    reads the same file, starts the same child, starts and stops the
    indicator at the same points, builds the chat on the same messages,
    sends the same texts and ends the same way. *)
Theorem X10_output_flags_change_printing_only
    (repr_params repr_params' : list string -> string)
    (args : Args) (va : bool) (lines : list string) :
  actions (fst (main w (with_flags config v r) repr_params' (with_verbose args va) lines))
  = actions (fst (main w config repr_params args lines))
  /\ snd (main w (with_flags config v r) repr_params' (with_verbose args va) lines)
     = snd (main w config repr_params args lines).
Proof.
  change (same_actions
            (main w (with_flags config v r) repr_params' (with_verbose args va) lines)
            (main w config repr_params args lines)).
  rewrite !main_phases.
  cbn [with_verbose filename args_verbose with_flags esbmc_params].
  do 11 flag_step. apply same_actions_conversation.
Qed.

End FlagFacts.

(** ** The shape of the output text *)

Lemma all_chars_append (p : ascii -> bool) (a b : string) :
  all_chars p (a ++ b) = (all_chars p a && all_chars p b)%bool.
Proof.
  induction a as [|c a IH]; [reflexivity|].
  cbn [append all_chars]. now rewrite IH, andb_assoc.
Qed.

Lemma all_chars_unescape (p : ascii -> bool) (s : string) :
  p LF = true -> all_chars p s = true -> all_chars p (unescape_newlines s) = true.
Proof.
  intros Hbreak.
  induction s as [|c|c d s IHs IHd] using string_pair_ind; intros H.
  - reflexivity.
  - rewrite unescape_skip by (cbn; congruence). exact H.
  - cbn [all_chars] in H. apply andb_prop in H. destruct H as [Hc H].
    destruct (ascii_dec c backslash) as [->|Hc'].
    + destruct (ascii_dec d "n") as [->|Hd].
      * rewrite unescape_match. cbn [all_chars]. rewrite Hbreak. cbn [andb].
        apply IHs. now apply andb_prop in H.
      * rewrite unescape_skip by (cbn; congruence).
        cbn [all_chars]. rewrite Hc. cbn [andb]. now apply IHd.
    + rewrite unescape_skip by congruence.
      cbn [all_chars]. rewrite Hc. cbn [andb]. now apply IHd.
Qed.

Lemma repr_byte_printable (q : ascii) (c : byte) :
  is_quote q -> all_chars printable_or_break (repr_byte q c) = true.
Proof. intros [-> | ->]; destruct c; reflexivity. Qed.

Lemma repr_body_printable (q : ascii) (bs : list byte) :
  is_quote q -> all_chars printable_or_break (repr_body q bs) = true.
Proof.
  intros Hq. induction bs as [|c bs IH]; [reflexivity|].
  cbn [repr_body]. now rewrite all_chars_append, repr_byte_printable, IH.
Qed.

Lemma bytes_repr_printable (bs : list byte) :
  all_chars printable_or_break (bytes_repr bs) = true.
Proof.
  rewrite bytes_repr_quoted. unfold quoted. cbn [all_chars].
  rewrite all_chars_append, repr_body_printable by apply repr_quote_is_quote.
  destruct (repr_quote_is_quote bs) as [-> | ->]; reflexivity.
Qed.

Lemma length_append (a b : string) :
  String.length (a ++ b) = String.length a + String.length b.
Proof. induction a as [|c a IH]; [reflexivity|]. cbn [append String.length]. now rewrite IH. Qed.

Lemma length_unescape (s : string) :
  String.length (unescape_newlines s) <= String.length s.
Proof.
  induction s as [|c|c d s IHs IHd] using string_pair_ind.
  - reflexivity.
  - rewrite unescape_skip by (cbn; congruence). reflexivity.
  - destruct (ascii_dec c backslash) as [->|Hc].
    + destruct (ascii_dec d "n") as [->|Hd].
      * rewrite unescape_match. cbn [String.length]. lia.
      * rewrite unescape_skip by (cbn; congruence). cbn [String.length] in *. lia.
    + rewrite unescape_skip by congruence. cbn [String.length] in *. lia.
Qed.

Lemma length_repr_byte (q : ascii) (c : byte) :
  1 <= String.length (repr_byte q c) <= 4.
Proof.
  unfold repr_byte.
  repeat match goal with |- context [if ?b then _ else _] => destruct b end;
    cbn [String.length]; lia.
Qed.

Lemma length_repr_body (q : ascii) (bs : list byte) :
  List.length bs <= String.length (repr_body q bs) <= 4 * List.length bs.
Proof.
  induction bs as [|c bs IH]; [cbn; lia|].
  cbn [repr_body List.length]. rewrite length_append.
  pose proof (length_repr_byte q c). lia.
Qed.

Lemma length_bytes_repr (bs : list byte) :
  List.length bs + 3 <= String.length (bytes_repr bs) <= 4 * List.length bs + 3.
Proof.
  rewrite bytes_repr_quoted. unfold quoted. cbn [String.length].
  rewrite length_append. cbn [String.length].
  pose proof (length_repr_body (repr_quote bs) bs). lia.
Qed.

Section OutputFacts.

Context {chat_module : ChatModule}.
Variable w : World.
Variable config : Config.

(** X11.  The texts the runner returns hold only line breaks and the
    printable characters from the space to the tilde: a byte of the
    verifier outside that range is shown by its escape, never as itself. *)
Theorem X11_runner_text_is_printable (path : string) (params : list string) :
  match snd (esbmc w config path params) with
  | Returned (_, output, err) =>
      all_chars printable_or_break output = true
      /\ all_chars printable_or_break err = true
  | Exited _ => False
  | Raised e => e = SpawnError
  end.
Proof.
  destruct (run_child w (esbmc_path config :: params ++ [path])%list) as [c|] eqn:Hrun.
  - rewrite (esbmc_returns w config path params c Hrun). cbn [snd]. split.
    + apply all_chars_unescape; [reflexivity | apply bytes_repr_printable].
    + reflexivity.
  - now rewrite (esbmc_fails w config path params Hrun).
Qed.

(** X12.  Replacing backslash-n once is enough: doing it again to the
    texts the runner returns changes nothing. *)
Theorem X12_runner_text_is_stable (path : string) (params : list string) :
  match snd (esbmc w config path params) with
  | Returned (_, output, err) =>
      str_replace output ESCAPED_NL NEWLINE = output
      /\ str_replace err ESCAPED_NL NEWLINE = err
  | Exited _ => False
  | Raised e => e = SpawnError
  end.
Proof.
  destruct (run_child w (esbmc_path config :: params ++ [path])%list) as [c|] eqn:Hrun.
  - rewrite (esbmc_returns w config path params c Hrun). cbn [snd]. split.
    + apply unescape_unchanged, unescape_no_escaped_newline.
    + reflexivity.
  - now rewrite (esbmc_fails w config path params Hrun).
Qed.

(** X13.  The output text of the runner is never longer than four
    characters for each byte the verifier wrote, and three for the b and
    the two quotes. *)
Theorem X13_runner_text_length (path : string) (params : list string) (c : Child) :
  run_child w (esbmc_path config :: params ++ [path])%list = Some c ->
  exists output err,
    snd (esbmc w config path params) = Returned (returncode c, output, err)
    /\ String.length output <= 4 * List.length (stdout_data c) + 3
    /\ List.length (stdout_data c) + 3 <= String.length (py_str (Some (stdout_data c)))
    /\ String.length output <= String.length (py_str (Some (stdout_data c))).
Proof.
  intros Hrun. rewrite (esbmc_returns w config path params c Hrun). cbn [snd py_str].
  eexists _, _. split; [reflexivity|].
  pose proof (length_unescape (bytes_repr (stdout_data c))).
  pose proof (length_bytes_repr (stdout_data c)). lia.
Qed.

End OutputFacts.

(** ** The error stream of the verifier *)

Section ErrorStreamFacts.

Context {chat_module : ChatModule}.
Variable w : World.
Variable config : Config.
Variable repr_params : list string -> string.

(** X14.  What the verifier writes to its error stream has no effect on
    the run: the program prints the same, sends the same and ends the
    same as with a verifier that writes nothing there. *)
Theorem X14_error_stream_has_no_effect (args : Args) (lines : list string) :
  main (without_stderr w) config repr_params args lines
  = main w config repr_params args lines.
Proof.
  destruct (path_exists w ".env") eqn:Henv.
  2:{ now rewrite (main_without_env w config repr_params args lines Henv),
        (main_without_env (without_stderr w) config repr_params args lines Henv). }
  destruct (path_exists w (esbmc_path config)) eqn:Hbin.
  2:{ now rewrite (main_without_verifier w config repr_params args lines Henv Hbin),
        (main_without_verifier (without_stderr w) config repr_params args lines Henv Hbin). }
  destruct (file_text w (filename args)) as [source|] eqn:Hsrc.
  2:{ now rewrite (main_unreadable w config repr_params args lines Henv Hbin Hsrc),
        (main_unreadable (without_stderr w) config repr_params args lines Henv Hbin Hsrc). }
  destruct (run_child w (verifier_cmd config args)) as [c|] eqn:Hrun.
  - rewrite (main_startup w config repr_params args lines source c Henv Hbin Hsrc Hrun).
    assert (Hrun' : run_child (without_stderr w) (verifier_cmd config args)
                    = Some {| returncode := returncode c;
                              stdout_data := stdout_data c;
                              stderr_data := [] |}).
    { cbn [without_stderr run_child]. now rewrite Hrun. }
    now rewrite (main_startup (without_stderr w) config repr_params args lines source _
                   Henv Hbin Hsrc Hrun').
  - rewrite (main_unstartable w config repr_params args lines source Henv Hbin Hsrc Hrun).
    assert (Hrun' : run_child (without_stderr w) (verifier_cmd config args) = None).
    { cbn [without_stderr run_child]. now rewrite Hrun. }
    now rewrite (main_unstartable (without_stderr w) config repr_params args lines source
                   Henv Hbin Hsrc Hrun').
Qed.

End ErrorStreamFacts.

(** X6 on a machine where [main.c] cannot be read. *)
Lemma X6_witness :
  exists pre,
    main (chat_module := demo_chat_module) no_source_world
      (demo_config demo_chat_module "gpt" tt) no_repr (demo_args []) ["/exit"]
    = ((pre ++ [ReadFile "main.c"])%list, Raised FileError)
    /\ forallb is_print pre = true.
Proof.
  exact (X6_unreadable_source_ends_the_run (chat_module := demo_chat_module)
           no_source_world (demo_config demo_chat_module "gpt" tt) no_repr
           (demo_args []) ["/exit"] eq_refl eq_refl eq_refl).
Defined.

(** X7 on a machine where the verifier cannot be started. *)
Lemma X7_witness :
  exists pre,
    main (chat_module := demo_chat_module) unstartable_world
      (demo_config demo_chat_module "gpt" tt) no_repr (demo_args []) ["/exit"]
    = ((pre ++ [ReadFile "main.c";
                AnimStart "ESBMC is processing... Please Wait";
                Spawn ["./esbmc"; "--k-induction"; "main.c"]])%list,
       Raised SpawnError)
    /\ forallb is_print pre = true.
Proof.
  exact (X7_unstartable_verifier_ends_the_run (chat_module := demo_chat_module)
           unstartable_world (demo_config demo_chat_module "gpt" tt) no_repr
           (demo_args []) ["/exit"] "int main() { return 0; }"
           eq_refl eq_refl eq_refl eq_refl).
Defined.

(** X9 at an operator who asks two questions, with an empty line and a
    call for help in between, and leaves. *)
Lemma X9_witness :
  exists rest unsent,
    sent (fst (main (chat_module := demo_chat_module) (demo_world 1 "VERIFICATION FAILED" "")
                 (demo_config demo_chat_module "gpt" tt) no_repr (demo_args [])
                 ["where is the bug?"; ""; "/help"; "how do I fix it?"; "/exit"; "thanks"]))
    = DEFAULT_PROMPT :: rest
    /\ ["where is the bug?"; "how do I fix it?"] = (rest ++ unsent)%list
    /\ unsent = [].
Proof.
  exact (X9_first_prompt_then_typed_messages (chat_module := demo_chat_module)
           (demo_world 1 "VERIFICATION FAILED" "")
           (demo_config demo_chat_module "gpt" tt) no_repr (demo_args [])
           ["where is the bug?"; ""; "/help"; "how do I fix it?"; "/exit"; "thanks"]
           "int main() { return 0; }"
           {| returncode := 1;
              stdout_data := bytes_of_string "VERIFICATION FAILED";
              stderr_data := bytes_of_string "" |}
           eq_refl eq_refl eq_refl eq_refl eq_refl).
Defined.

(** X13 at a verifier that writes a tab, a byte above the tilde and a
    line break. *)
Lemma X13_witness :
  exists output err,
    snd (esbmc (chat_module := demo_chat_module)
           (demo_world 1 (String "009" (String "200" (String LF ""))) "")
           (demo_config demo_chat_module "gpt" tt) "main.c" ["--k-induction"])
    = Returned (1%Z, output, err)
    /\ String.length output <= 4 * 3 + 3
    /\ 3 + 3 <= String.length "b'\t\xc8\n'"
    /\ String.length output <= String.length "b'\t\xc8\n'".
Proof.
  exact (X13_runner_text_length (chat_module := demo_chat_module)
           (demo_world 1 (String "009" (String "200" (String LF ""))) "")
           (demo_config demo_chat_module "gpt" tt) "main.c" ["--k-induction"]
           {| returncode := 1;
              stdout_data := bytes_of_string (String "009" (String "200" (String LF "")));
              stderr_data := bytes_of_string "" |}
           eq_refl).
Defined.

(** ** The arguments after the file name *)



